(** * Bookstore API handlers ([bookstore/handlers.py])

    A shallow embedding of the two Tornado request handlers of the bookstore
    notebook-server extension and of its extension-load hook, followed by the
    properties of the publish and version operations.

    Layout:
    - [Py]: the fragment of Python's data model the handlers rely on
      (JSON-decoded values, truthiness, subscripting, [str.lstrip]);
    - [Tornado]: exceptions, the per-request handler state and the small
      state-and-exception monad in which handler bodies are written;
    - [Collaborators]: what [handlers.py] imports and does not define;
    - [BookstoreVersionHandler], [BookstorePublishHandler], [Extension]:
      the code of [handlers.py];
    - [Model]: a concrete instance of the collaborators and sample inputs;
    - [PublishSpec], [VersionSpec], [ExtensionSpec]: the properties;
    - [Examples]: the properties at the sample inputs, and sample runs. *)

From Stdlib Require Import String Ascii List ZArith Bool Lia.
From Stdlib Require Import Floats.SpecFloat Numbers.DecimalString.
Import ListNotations.
Local Open Scope string_scope.
Local Open Scope Z_scope.
Local Set Warnings "-register-all".

(* ===================================================================== *)
(** ** Python values                                                      *)
(* ===================================================================== *)

Module Py.

(** What [json.loads] can produce, and [None].  A [dict] is kept as the list
    of its items in insertion order; the keys of a Python dict are pairwise
    distinct, so [dict_lookup] returning the first binding returns the only
    one.  A [str] is a sequence of characters; [ascii] stands for the
    character type. *)
Inductive pyval : Type :=
| PNone
| PBool (b : bool)
| PInt (n : Z)
| PFloat (x : spec_float)
| PStr (s : string)
| PList (items : list pyval)
| PDict (items : list (string * pyval)).

Definition pydict : Type := list (string * pyval).

(** [bool(v)]: Python's truth value testing. *)
Definition truthy (v : pyval) : bool :=
  match v with
  | PNone => false
  | PBool b => b
  | PInt n => negb (n =? 0)
  | PFloat (S754_zero _) => false
  | PFloat _ => true
  | PStr s => negb (s =? "")%string
  | PList l => match l with [] => false | _ :: _ => true end
  | PDict d => match d with [] => false | _ :: _ => true end
  end.

(** [all(vs)] *)
Definition all (vs : list pyval) : bool := forallb truthy vs.

Fixpoint dict_lookup (k : string) (d : pydict) : option pyval :=
  match d with
  | [] => None
  | (k', v) :: d' => if (k' =? k)%string then Some v else dict_lookup k d'
  end.

(** [d.get(k)] for a dict [d]: [None] when the key is missing. *)
Definition dict_get (d : pydict) (k : string) : pyval :=
  match dict_lookup k d with Some v => v | None => PNone end.

(** [v != s] where [s] is a [str] literal: a value of another type is never
    equal to a [str]. *)
Definition ne_str (v : pyval) (s : string) : bool :=
  match v with
  | PStr t => negb (t =? s)%string
  | _ => true
  end.

Definition mem_ascii (c : ascii) (chars : string) : bool :=
  existsb (Ascii.eqb c) (list_ascii_of_string chars).

(** [s.lstrip(chars)]: drop the longest prefix made of characters of
    [chars]. *)
Fixpoint lstrip (chars : string) (s : string) : string :=
  match s with
  | EmptyString => EmptyString
  | String c s' => if mem_ascii c chars then lstrip chars s' else s
  end.

End Py.

Import Py.

(* ===================================================================== *)
(** ** The host framework: exceptions, handler state, handler monad        *)
(* ===================================================================== *)

Module Tornado.

(** Exceptions that can leave a handler.  [HTTPError] is
    [tornado.web.HTTPError(status_code, log_message)]; [KeyError] and
    [TypeError] are raised by subscripting, [AttributeError] by calling a
    method the value does not have; [ClientError] stands for whatever the
    object-storage client raises. *)
Inductive exn : Type :=
| HTTPError (status_code : Z) (log_message : option string)
| KeyError (key : string)
| TypeError (message : string)
| AttributeError (message : string)
| RuntimeError (message : string)
| ClientError (name : string).

(** The status the framework answers with when an exception leaves a handler:
    the status of an [HTTPError], 500 for any other exception. *)
Definition status_of_exn (e : exn) : Z :=
  match e with
  | HTTPError code _ => code
  | _ => 500
  end.

Inductive result (A : Type) : Type :=
| Ok (a : A)
| Raise (e : exn).
Arguments Ok {A} a.
Arguments Raise {A} e.

(** Observable actions of a handler, in the order they happen. *)
Inductive event : Type :=
| LogInfo (message : string)
| GetJsonBody
| CreateClient (service aws_secret_access_key aws_access_key_id
                endpoint_url region_name : string)
| PutObject (Bucket Key Body : string)
| CloseClient.

(** [web_app.settings], by the entries this module touches: ['base_url'],
    which the host sets before extensions load, and ['bookstore'], absent
    until the extension stores it. *)
Record app_settings : Type := {
  base_url : string;
  bookstore : option pyval
}.

(** What a running handler can read and change: the application settings it
    shares with every other request, the response it is building, and the
    actions performed so far. *)
Record handler_state : Type := {
  settings : app_settings;
  status : Z;
  finished : option string;
  trace : list event
}.

(** The state a handler starts from: status 200, nothing written. *)
Definition new_request (app : app_settings) (history : list event) : handler_state :=
  {| settings := app; status := 200; finished := None; trace := history |}.

(** Code with effects: reads and updates a state of type [S], returns or
    raises.  The state reached when an exception is raised is kept, as in
    Python. *)
Definition prog (S A : Type) : Type := S -> result A * S.

Definition ret {S A} (a : A) : prog S A := fun st => (Ok a, st).

Definition bind {S A B} (m : prog S A) (k : A -> prog S B) : prog S B :=
  fun st =>
    match m st with
    | (Ok a, st') => k a st'
    | (Raise e, st') => (Raise e, st')
    end.

Definition raise {S A} (e : exn) : prog S A := fun st => (Raise e, st).

(** Handler code runs on a [handler_state]. *)
Definition M (A : Type) : Type := prog handler_state A.

(** The state [st] after the actions [evs] were added to its trace. *)
Definition after (st : handler_state) (evs : list event) : handler_state :=
  {| settings := settings st; status := status st;
     finished := finished st; trace := trace st ++ evs |}.

Definition emit (ev : event) : M unit := fun st => (Ok tt, after st [ev]).

(** [try: body finally: cleanup] *)
Definition finally {S A} (body : prog S A) (cleanup : prog S unit) : prog S A :=
  fun st =>
    match body st with
    | (r, st') =>
        match cleanup st' with
        | (Ok _, st'') => (r, st'')
        | (Raise e, st'') => (Raise e, st'')
        end
    end.

Declare Scope handler_scope.
Delimit Scope handler_scope with handler.
Notation "x <- m ;; k" := (bind m (fun x => k))
  (at level 61, m at next level, right associativity) : handler_scope.
Notation "m ;; k" := (bind m (fun _ => k))
  (at level 61, right associativity) : handler_scope.
Local Open Scope handler_scope.

(** [self.log.info(message)] *)
Definition log_info (message : string) : M unit := emit (LogInfo message).

(** [self.set_status(code)] *)
Definition set_status (code : Z) : M unit :=
  fun st => (Ok tt, {| settings := settings st; status := code;
                       finished := finished st; trace := trace st |}).

(** [self.finish(chunk)]: writes the chunk and ends the response; a second
    call raises. *)
Definition finish (chunk : string) : M unit :=
  fun st =>
    match finished st with
    | Some _ => (Raise (RuntimeError "finish() called twice"), st)
    | None => (Ok tt, {| settings := settings st; status := status st;
                         finished := Some chunk; trace := trace st |})
    end.

(** [v.get(k)]: a method of dicts. *)
Definition get_method {S} (v : pyval) (k : string) : prog S pyval :=
  match v with
  | PDict d => ret (dict_get d k)
  | _ => raise (AttributeError "object has no attribute 'get'")
  end.

(** [self.settings] *)
Definition get_settings : M app_settings := fun st => (Ok (settings st), st).

(** [v[k]] for a [str] key [k]: only a dict can be subscripted by a str. *)
Definition getitem {S} (v : pyval) (k : string) : prog S pyval :=
  match v with
  | PDict d =>
      match dict_lookup k d with
      | Some x => ret x
      | None => raise (KeyError k)
      end
  | PList _ => raise (TypeError "list indices must be integers or slices, not str")
  | PStr _ => raise (TypeError "string indices must be integers")
  | _ => raise (TypeError "object is not subscriptable")
  end.

(** An incoming request, as far as the handlers look at it: the user the
    host's authentication resolved ([self.current_user], falsy when there is
    none) and what the host's [get_json_body] gives for the body: [None] for
    an absent body, the decoded value, or the exception it raises on a body
    that is not JSON. *)
Record request : Type := {
  current_user : pyval;
  json_body : result pyval
}.

(** [self.get_json_body()] *)
Definition get_json_body (req : request) : M pyval :=
  emit GetJsonBody ;;
  match json_body req with
  | Ok v => ret v
  | Raise e => raise e
  end.

(** [@web.authenticated]: the method runs only for a request with a current
    user; otherwise the authentication collaborator rejects the request. *)
Definition authenticated (req : request) (method : M unit) : M unit :=
  if truthy (current_user req) then method else raise (HTTPError 403 None).

(** How many [put_object] calls a trace holds. *)
Definition is_put_object (ev : event) : bool :=
  match ev with PutObject _ _ _ => true | _ => false end.

Definition put_objects (t : list event) : list event := filter is_put_object t.

(** The actions on the storage client among those of a trace. *)
Definition is_client_event (ev : event) : bool :=
  match ev with
  | CreateClient _ _ _ _ _ | PutObject _ _ _ | CloseClient => true
  | _ => false
  end.

Definition client_events (t : list event) : list event := filter is_client_event t.

(** The status the framework answers with once a handler has ended: the one
    the handler set when it returned, the one of the exception when it
    raised. *)
Definition answer (out : result unit * handler_state) : Z :=
  match fst out with
  | Ok _ => status (snd out)
  | Raise e => status_of_exn e
  end.

End Tornado.

Import Tornado.
Local Open Scope handler_scope.

(* ===================================================================== *)
(** ** What [handlers.py] imports                                         *)
(* ===================================================================== *)

(** [bookstore_config.BookstoreSettings], by the traits the handlers read. *)
Record BookstoreSettings : Type := {
  s3_bucket : string;
  published_prefix : string;
  s3_secret_access_key : string;
  s3_access_key_id : string;
  s3_endpoint_url : string;
  s3_region_name : string
}.

(** Functions and constants defined outside [handlers.py]: [json.dumps], the
    [s3_paths] helpers, [bookstore_config.validate_bookstore] (it returns the
    validation report, a dict), [notebook.utils.url_path_join], the host's
    [path_regex] and the package's [__version__].  The handlers are verified
    for every choice of them. *)
Class Collaborators : Type := {
  json_dumps : pyval -> string;
  s3_path : string -> string -> string -> string;
  s3_key : string -> string -> string;
  s3_display_path : string -> string -> string -> string;
  validate_bookstore : BookstoreSettings -> pydict;
  url_path_join : string -> string -> string;
  path_regex : string;
  version : string
}.

(** The object store behind an [aiobotocore] session: what a [put_object]
    call answers, given how many [put_object] calls were made before it and
    its [Bucket], [Key] and [Body].  The answer is the response dict or an
    exception of the client. *)
Inductive s3_reply : Type :=
| Replied (obj : pydict)
| Failed (name : string).

Record aiobotocore_session : Type := {
  put_object_reply : nat -> string -> string -> string -> s3_reply
}.

(** [await client.put_object(Bucket=..., Key=..., Body=...)] *)
Definition put_object (session : aiobotocore_session)
    (Bucket Key Body : string) : M pydict :=
  fun st =>
    let earlier := length (put_objects (trace st)) in
    match emit (PutObject Bucket Key Body) st with
    | (_, st') =>
        match put_object_reply session earlier Bucket Key Body with
        | Replied obj => (Ok obj, st')
        | Failed name => (Raise (ClientError name), st')
        end
    end.

(** [async with session.create_client(...) as client: body]: the client is
    released on every way out of the body. *)
Definition with_client {A} (service aws_secret_access_key aws_access_key_id
    endpoint_url region_name : string) (body : M A) : M A :=
  emit (CreateClient service aws_secret_access_key aws_access_key_id
          endpoint_url region_name) ;;
  finally body (emit CloseClient).

(* ===================================================================== *)
(** ** [class BookstoreVersionHandler]                                    *)
(* ===================================================================== *)

Module BookstoreVersionHandler.

(** The dict the version handler serializes. *)
Definition version_info (v r : pyval) : pyval :=
  PDict [("bookstore", PBool true); ("version", v); ("validation", r)].

Section Handler.
Context {C : Collaborators}.

(** [self.settings['bookstore']] *)
Definition settings_bookstore : M pyval :=
  app <- get_settings ;;
  match bookstore app with
  | Some b => ret b
  | None => raise (KeyError "bookstore")
  end.

Definition get (req : request) : M unit :=
  authenticated req
    (b1 <- settings_bookstore ;;
     v <- getitem b1 "version" ;;
     b2 <- settings_bookstore ;;
     r <- getitem b2 "validation" ;;
     finish (json_dumps (PDict [("bookstore", PBool true);
                                ("version", v);
                                ("validation", r)]))).

End Handler.
End BookstoreVersionHandler.

(* ===================================================================== *)
(** ** [class BookstorePublishHandler]                                    *)
(* ===================================================================== *)

Module BookstorePublishHandler.

(** A path [put] accepts: neither empty nor the root. *)
Definition path_given (path : string) : Prop := path <> "" /\ path <> "/".

(** The first log line of every authenticated [put]. *)
Definition attempt (path : string) : event :=
  LogInfo ("Attempt publishing to " ++ path).

(** The string of [n] slashes. *)
Fixpoint slashes (n : nat) : string :=
  match n with
  | O => ""
  | S n' => String "/" (slashes n')
  end.

Section Handler.
Context {C : Collaborators}.

(** What [initialize] stores on the handler. *)
Variable bookstore_settings : BookstoreSettings.
Variable session : aiobotocore_session.

Definition _publish (model : pyval) (path : string) : M unit :=
  type <- getitem model "type" ;;
  if ne_str type "notebook" then
    raise (HTTPError 400 (Some "bookstore only publishes notebooks"))
  else
    (content <- getitem model "content" ;;
     let full_s3_path :=
       s3_path (s3_bucket bookstore_settings)
               (published_prefix bookstore_settings) path in
     let file_key := s3_key (published_prefix bookstore_settings) path in
     log_info ("Publishing to " ++
               s3_display_path (s3_bucket bookstore_settings)
                               (published_prefix bookstore_settings) path) ;;
     obj <- with_client "s3"
              (s3_secret_access_key bookstore_settings)
              (s3_access_key_id bookstore_settings)
              (s3_endpoint_url bookstore_settings)
              (s3_region_name bookstore_settings)
              (log_info ("Processing published write of " ++ path) ;;
               obj <- put_object session (s3_bucket bookstore_settings)
                        file_key (json_dumps content) ;;
               log_info ("Done with published write of " ++ path) ;;
               ret obj) ;;
     set_status 201 ;;
     let resp_content := [("s3path", PStr full_s3_path)] in
     let resp_content :=
       match dict_lookup "VersionId" obj with
       | Some version_id => (resp_content ++ [("versionID", version_id)])%list
       | None => resp_content
       end in
     let resp_str := json_dumps (PDict resp_content) in
     finish resp_str).

Definition put (req : request) (path : string) : M unit :=
  authenticated req
    (log_info ("Attempt publishing to " ++ path) ;;
     if ((path =? "") || (path =? "/"))%string then
       raise (HTTPError 400 (Some "Must provide a path for publishing"))
     else
       (model <- get_json_body req ;;
        if truthy model then _publish model (lstrip "/" path)
        else raise (HTTPError 400 (Some "Cannot publish an empty model")))).

(** *** Vocabulary for the properties of [put] *)

(** What a write of [content] under the relative path [path] does up to and
    including its [put_object] call, and after the call answered. *)
Definition write_begun (path : string) (content : pyval) : list event :=
  [LogInfo ("Publishing to " ++ s3_display_path (s3_bucket bookstore_settings)
              (published_prefix bookstore_settings) path);
   CreateClient "s3" (s3_secret_access_key bookstore_settings)
     (s3_access_key_id bookstore_settings)
     (s3_endpoint_url bookstore_settings)
     (s3_region_name bookstore_settings);
   LogInfo ("Processing published write of " ++ path);
   PutObject (s3_bucket bookstore_settings)
     (s3_key (published_prefix bookstore_settings) path) (json_dumps content)].

Definition write_done (path : string) : list event :=
  [LogInfo ("Done with published write of " ++ path); CloseClient].

(** The response dict for a write under [path] that the store answered with
    [obj]. *)
Definition response_content (path : string) (obj : pydict) : pydict :=
  ("s3path", PStr (s3_path (s3_bucket bookstore_settings)
                     (published_prefix bookstore_settings) path)) ::
  match dict_lookup "VersionId" obj with
  | Some version_id => [("versionID", version_id)]
  | None => []
  end.

(** A model of the shape the handler publishes. *)
Definition notebook_model (d : pydict) (content : pyval) : Prop :=
  dict_lookup "type" d = Some (PStr "notebook") /\
  dict_lookup "content" d = Some content.

(** Two states a handler cannot tell apart and that hold the same
    [put_object] calls: they differ at most in the other actions of their
    traces. *)
Definition same_but_log (st1 st2 : handler_state) : Prop :=
  settings st1 = settings st2 /\ status st1 = status st2 /\
  finished st1 = finished st2 /\
  put_objects (trace st1) = put_objects (trace st2).

(** Every way out of [put].

    [put_exit req path st out]: [out] is one of the eleven ways a [put] of
    [req] at [path] from the state [st] can end.  [PublishSpec.put_exits] shows
    that [put] always ends in one of them. *)
Inductive put_exit (req : request) (path : string) (st : handler_state)
  : result unit * handler_state -> Prop :=
| exit_unauthenticated :
    truthy (current_user req) = false ->
    put_exit req path st (Raise (HTTPError 403 None), st)
| exit_path_missing :
    truthy (current_user req) = true ->
    path = "" \/ path = "/" ->
    put_exit req path st
      (Raise (HTTPError 400 (Some "Must provide a path for publishing")),
       after st [attempt path])
| exit_body_raises e :
    truthy (current_user req) = true -> path_given path ->
    json_body req = Raise e ->
    put_exit req path st (Raise e, after st [attempt path; GetJsonBody])
| exit_empty_model v :
    truthy (current_user req) = true -> path_given path ->
    json_body req = Ok v -> truthy v = false ->
    put_exit req path st
      (Raise (HTTPError 400 (Some "Cannot publish an empty model")),
       after st [attempt path; GetJsonBody])
| exit_not_subscriptable v msg :
    truthy (current_user req) = true -> path_given path ->
    json_body req = Ok v -> truthy v = true ->
    (forall d, v <> PDict d) ->
    put_exit req path st
      (Raise (TypeError msg), after st [attempt path; GetJsonBody])
| exit_type_missing d :
    truthy (current_user req) = true -> path_given path ->
    json_body req = Ok (PDict d) -> truthy (PDict d) = true ->
    dict_lookup "type" d = None ->
    put_exit req path st
      (Raise (KeyError "type"), after st [attempt path; GetJsonBody])
| exit_wrong_type d t :
    truthy (current_user req) = true -> path_given path ->
    json_body req = Ok (PDict d) ->
    dict_lookup "type" d = Some t -> t <> PStr "notebook" ->
    put_exit req path st
      (Raise (HTTPError 400 (Some "bookstore only publishes notebooks")),
       after st [attempt path; GetJsonBody])
| exit_content_missing d :
    truthy (current_user req) = true -> path_given path ->
    json_body req = Ok (PDict d) ->
    dict_lookup "type" d = Some (PStr "notebook") ->
    dict_lookup "content" d = None ->
    put_exit req path st
      (Raise (KeyError "content"), after st [attempt path; GetJsonBody])
| exit_storage_failed d content name :
    truthy (current_user req) = true -> path_given path ->
    json_body req = Ok (PDict d) -> notebook_model d content ->
    put_object_reply session (length (put_objects (trace st)))
      (s3_bucket bookstore_settings)
      (s3_key (published_prefix bookstore_settings) (lstrip "/" path))
      (json_dumps content)
    = Failed name ->
    put_exit req path st
      (Raise (ClientError name),
       after st ([attempt path; GetJsonBody] ++
                 write_begun (lstrip "/" path) content ++ [CloseClient]))
| exit_finished_twice d content obj chunk :
    truthy (current_user req) = true -> path_given path ->
    json_body req = Ok (PDict d) -> notebook_model d content ->
    put_object_reply session (length (put_objects (trace st)))
      (s3_bucket bookstore_settings)
      (s3_key (published_prefix bookstore_settings) (lstrip "/" path))
      (json_dumps content)
    = Replied obj ->
    finished st = Some chunk ->
    put_exit req path st
      (Raise (RuntimeError "finish() called twice"),
       {| settings := settings st; status := 201; finished := Some chunk;
          trace := trace st ++ [attempt path; GetJsonBody] ++
                   write_begun (lstrip "/" path) content ++
                   write_done (lstrip "/" path) |})
| exit_published d content obj :
    truthy (current_user req) = true -> path_given path ->
    json_body req = Ok (PDict d) -> notebook_model d content ->
    put_object_reply session (length (put_objects (trace st)))
      (s3_bucket bookstore_settings)
      (s3_key (published_prefix bookstore_settings) (lstrip "/" path))
      (json_dumps content)
    = Replied obj ->
    finished st = None ->
    put_exit req path st
      (Ok tt,
       {| settings := settings st; status := 201;
          finished :=
            Some (json_dumps (PDict (response_content (lstrip "/" path) obj)));
          trace := trace st ++ [attempt path; GetJsonBody] ++
                   write_begun (lstrip "/" path) content ++
                   write_done (lstrip "/" path) |}).

End Handler.
End BookstorePublishHandler.

(* ===================================================================== *)
(** ** [load_jupyter_server_extension]                                    *)
(* ===================================================================== *)

Module Extension.

Inductive handler_class : Type :=
| BookstoreVersionHandler
| BookstorePublishHandler.

Definition handler_class_eqb (a b : handler_class) : bool :=
  match a, b with
  | BookstoreVersionHandler, BookstoreVersionHandler => true
  | BookstorePublishHandler, BookstorePublishHandler => true
  | _, _ => false
  end.

(** A route: a URL pattern and the handler class serving it. *)
Definition route : Type := (string * handler_class)%type.

(** [nb_app.web_app]: its settings and the routes added so far, each group
    under its host pattern, in the order [add_handlers] was called. *)
Record web_application : Type := {
  web_settings : app_settings;
  handlers : list (string * list route)
}.

(** [nb_app]: the web application, the bookstore traits of its configuration
    (what [BookstoreSettings(parent=nb_app)] holds) and its log. *)
Record NotebookApp : Type := {
  web_app : web_application;
  bookstore_config : BookstoreSettings;
  log : list string
}.

(** Whether some route of [rules] is served by [cls]. *)
Definition mounted (cls : handler_class) (rules : list (string * list route)) : bool :=
  existsb (fun group => existsb (fun r => handler_class_eqb (snd r) cls) (snd group))
          rules.

Section Load.
Context {C : Collaborators}.

(** [web_app.settings['base_url']] *)
Definition settings_base_url : prog NotebookApp string :=
  fun nb => (Ok (base_url (web_settings (web_app nb))), nb).

(** [web_app.settings['bookstore']] *)
Definition settings_bookstore : prog NotebookApp pyval :=
  fun nb =>
    match bookstore (web_settings (web_app nb)) with
    | Some b => (Ok b, nb)
    | None => (Raise (KeyError "bookstore"), nb)
    end.

(** [web_app.settings['bookstore'] = v] *)
Definition set_settings_bookstore (v : pyval) : prog NotebookApp unit :=
  fun nb =>
    (Ok tt,
     {| web_app :=
          {| web_settings :=
               {| base_url := base_url (web_settings (web_app nb));
                  bookstore := Some v |};
             handlers := handlers (web_app nb) |};
        bookstore_config := bookstore_config nb;
        log := log nb |}).

(** [web_app.add_handlers(host_pattern, host_handlers)] *)
Definition add_handlers (host_pattern : string) (host_handlers : list route)
    : prog NotebookApp unit :=
  fun nb =>
    (Ok tt,
     {| web_app :=
          {| web_settings := web_settings (web_app nb);
             handlers := handlers (web_app nb) ++ [(host_pattern, host_handlers)] |};
        bookstore_config := bookstore_config nb;
        log := log nb |}).

(** [BookstoreSettings(parent=nb_app)] *)
Definition BookstoreSettings_parent : prog NotebookApp BookstoreSettings :=
  fun nb => (Ok (bookstore_config nb), nb).

(** [nb_app.log.info(message)] *)
Definition nb_log_info (message : string) : prog NotebookApp unit :=
  fun nb =>
    (Ok tt,
     {| web_app := web_app nb;
        bookstore_config := bookstore_config nb;
        log := log nb ++ [message] |}).

Definition load_jupyter_server_extension : prog NotebookApp unit :=
  let host_pattern := ".*$" in
  (* Always enable the version handler *)
  base <- settings_base_url ;;
  let base_bookstore_pattern := url_path_join base "/api/bookstore" in
  add_handlers host_pattern [(base_bookstore_pattern, BookstoreVersionHandler)] ;;
  bookstore_settings <- BookstoreSettings_parent ;;
  set_settings_bookstore
    (PDict [("version", PStr version);
            ("validation", PDict (validate_bookstore bookstore_settings))]) ;;
  b1 <- settings_bookstore ;;
  v1 <- getitem b1 "validation" ;;
  bookstore_valid <- get_method v1 "bookstore_valid" ;;
  b2 <- settings_bookstore ;;
  v2 <- getitem b2 "validation" ;;
  publish_valid <- get_method v2 "publish_valid" ;;
  let check_published := [bookstore_valid; publish_valid] in
  if negb (all check_published) then
    nb_log_info "[bookstore] Not enabling bookstore publishing, endpoint not configured"
  else
    (nb_log_info ("[bookstore] Enabling bookstore publishing, version: " ++ version) ;;
     add_handlers host_pattern
       [(url_path_join base_bookstore_pattern ("/published" ++ path_regex),
         BookstorePublishHandler)]).

(** *** Vocabulary for the properties of the hook *)

(** The two routes the extension knows. *)
Definition version_route (nb : NotebookApp) : string * list route :=
  (".*$",
   [(url_path_join (base_url (web_settings (web_app nb))) "/api/bookstore",
     BookstoreVersionHandler)]).

Definition publish_route (nb : NotebookApp) : string * list route :=
  (".*$",
   [(url_path_join
       (url_path_join (base_url (web_settings (web_app nb))) "/api/bookstore")
       ("/published" ++ path_regex),
     BookstorePublishHandler)]).

(** A report whose two flags, where present, are booleans. *)
Definition boolean_flags (report : pydict) : Prop :=
  forall k, k = "bookstore_valid" \/ k = "publish_valid" ->
    dict_lookup k report = None \/ exists b, dict_lookup k report = Some (PBool b).

(** Whether the report enables publishing, as the hook tests it. *)
Definition publishing_enabled (report : pydict) : bool :=
  truthy (dict_get report "bookstore_valid") &&
  truthy (dict_get report "publish_valid").

End Load.
End Extension.

(* ===================================================================== *)
(** ** A concrete instance of the collaborators                           *)
(* ===================================================================== *)

(** Used for the sample runs at the end of the file; the properties below
    are proved for every instance. *)
Module Model.

Definition rev_string (s : string) : string :=
  string_of_list_ascii (rev (list_ascii_of_string s)).

(** [s.rstrip(chars)] *)
Definition rstrip (chars : string) (s : string) : string :=
  rev_string (lstrip chars (rev_string s)).

(** Modelled from the spec: [s3_paths.s3_key] (the module [s3_paths] is not
    part of the sources at hand).  The prefix and the relative path joined
    with exactly one separator, whether or not the prefix ends in one or the
    path begins with one. *)
Definition s3_key (prefix path : string) : string :=
  rstrip "/" prefix ++ "/" ++ lstrip "/" path.

(** Modelled from the spec: [s3_paths.s3_path], the scheme-qualified
    identifier [s3://bucket/key]. *)
Definition s3_path (bucket prefix path : string) : string :=
  "s3://" ++ bucket ++ "/" ++ s3_key prefix path.

(** Modelled from the spec: [s3_paths.s3_display_path], a readable
    identifier for logs. *)
Definition s3_display_path (bucket prefix path : string) : string :=
  "s3://" ++ bucket ++ "/" ++ s3_key prefix path.

(** Modelled from the spec: [bookstore_config.validate_bookstore], the
    start-up report of flags telling whether the required configuration for
    bookstore and for publishing is present. *)
Definition validate_bookstore (s : BookstoreSettings) : pydict :=
  [("bookstore_valid", PBool (negb (s3_bucket s =? "")%string));
   ("publish_valid", PBool (negb (published_prefix s =? "")%string))].

(** [url_path_join] on two pieces: one slash between them. *)
Definition url_path_join (a b : string) : string :=
  rstrip "/" a ++ "/" ++ lstrip "/" b.

Definition path_regex : string := "(?P<path>(?:(?:/[^/]+)+|/?))".

Definition version : string := "2.0.0".

(** A serializer with the layout of [json.dumps]'s defaults. *)
Definition dquote : string := String (ascii_of_nat 34) EmptyString.

Definition hex_digit (n : nat) : ascii :=
  nth n (list_ascii_of_string "0123456789abcdef") "0"%char.

Definition escape_char (c : ascii) : string :=
  let n := nat_of_ascii c in
  if Nat.eqb n 34 then "\" ++ dquote
  else if Nat.eqb n 92 then "\\"
  else if Nat.eqb n 10 then "\n"
  else if Nat.eqb n 13 then "\r"
  else if Nat.eqb n 9 then "\t"
  else if Nat.eqb n 8 then "\b"
  else if Nat.eqb n 12 then "\f"
  else if (Nat.ltb n 32 || Nat.ltb 126 n)%bool then
    "\u00" ++ String (hex_digit (Nat.div n 16))
                (String (hex_digit (Nat.modulo n 16)) EmptyString)
  else String c EmptyString.

Definition quote (s : string) : string :=
  dquote ++ String.concat "" (map escape_char (list_ascii_of_string s)) ++ dquote.

Definition string_of_Z (n : Z) : string :=
  DecimalString.NilZero.string_of_int (Z.to_int n).

(** Zeros, infinities and NaN as [json.dumps] writes them; a finite float is
    written by its exact value [m*2**e], its shortest decimal form not being
    modelled. *)
Definition float_repr (x : spec_float) : string :=
  match x with
  | S754_zero false => "0.0"
  | S754_zero true => "-0.0"
  | S754_infinity false => "Infinity"
  | S754_infinity true => "-Infinity"
  | S754_nan => "NaN"
  | S754_finite s m e =>
      (if s then "-" else "") ++ string_of_Z (Z.pos m) ++ "*2**" ++ string_of_Z e
  end.

Fixpoint json_dumps (v : pyval) : string :=
  match v with
  | PNone => "null"
  | PBool true => "true"
  | PBool false => "false"
  | PInt n => string_of_Z n
  | PFloat x => float_repr x
  | PStr s => quote s
  | PList l =>
      "[" ++
      (fix items (l : list pyval) : string :=
         match l with
         | [] => ""
         | x :: r =>
             json_dumps x ++ match r with [] => "" | _ :: _ => ", " ++ items r end
         end) l ++ "]"
  | PDict d =>
      "{" ++
      (fix items (d : list (string * pyval)) : string :=
         match d with
         | [] => ""
         | (k, x) :: r =>
             quote k ++ ": " ++ json_dumps x ++
             match r with [] => "" | _ :: _ => ", " ++ items r end
         end) d ++ "}"
  end.

#[export] Instance collaborators : Collaborators :=
  Build_Collaborators json_dumps s3_path s3_key s3_display_path
    validate_bookstore url_path_join path_regex version.

(** Sample inputs. *)
Definition sample_settings : BookstoreSettings :=
  {| s3_bucket := "bookstore";
     published_prefix := "published";
     s3_secret_access_key := "secret";
     s3_access_key_id := "key-id";
     s3_endpoint_url := "http://127.0.0.1:9000";
     s3_region_name := "us-east-1" |}.

Definition sample_app : app_settings := {| base_url := "/"; bookstore := None |}.

Definition sample_nb_app (cfg : BookstoreSettings) : Extension.NotebookApp :=
  {| Extension.web_app :=
       {| Extension.web_settings := sample_app; Extension.handlers := [] |};
     Extension.bookstore_config := cfg;
     Extension.log := [] |}.

(** A request of a logged-in user with the given outcome of
    [get_json_body]. *)
Definition user_request (body : result pyval) : request :=
  {| current_user := PStr "user"; json_body := body |}.

Definition sample_notebook : pyval :=
  PDict [("type", PStr "notebook");
         ("content", PDict [("cells", PList [])])].

(** Stores that answer every write without a version, with the version
    [v1], and with an exception. *)
Definition unversioned_store : aiobotocore_session :=
  {| put_object_reply := fun _ _ _ _ => Replied [("ETag", PStr "e1")] |}.

Definition versioned_store : aiobotocore_session :=
  {| put_object_reply :=
       fun _ _ _ _ => Replied [("ETag", PStr "e1"); ("VersionId", PStr "v1")] |}.

Definition failing_store : aiobotocore_session :=
  {| put_object_reply := fun _ _ _ _ => Failed "EndpointConnectionError" |}.

(** The settings of [sample_app] once the extension is loaded with
    [sample_settings]. *)
Definition loaded_app : app_settings :=
  {| base_url := "/";
     bookstore :=
       Some (PDict [("version", PStr "2.0.0");
                    ("validation",
                     PDict [("bookstore_valid", PBool true);
                            ("publish_valid", PBool true)])]) |}.

End Model.

(* ===================================================================== *)
(** ** Properties of the publish handler                                  *)
(* ===================================================================== *)

Module PublishSpec.
Import BookstorePublishHandler.

Lemma after_after (st : handler_state) (a b : list event) :
  after (after st a) b = after st (a ++ b).
Proof. unfold after; cbn. now rewrite <- app_assoc. Qed.

Lemma put_objects_app (a b : list event) :
  put_objects (a ++ b) = (put_objects a ++ put_objects b)%list.
Proof. apply filter_app. Qed.

Section Handler.
Context {C : Collaborators}.
Variable bookstore_settings : BookstoreSettings.
Variable session : aiobotocore_session.

Local Abbreviation put := (put bookstore_settings session).
Local Abbreviation _publish := (_publish bookstore_settings session).
Local Abbreviation bucket := (s3_bucket bookstore_settings).
Local Abbreviation prefix := (published_prefix bookstore_settings).
Local Abbreviation write_begun := (write_begun bookstore_settings).
Local Abbreviation response_content := (response_content bookstore_settings).
Local Abbreviation put_exit := (put_exit bookstore_settings session).

Lemma path_given_test (path : string) :
  path_given path -> ((path =? "") || (path =? "/"))%string = false.
Proof.
  intros [H1 H2].
  apply orb_false_iff; split; now apply String.eqb_neq.
Qed.

Lemma path_missing_test (path : string) :
  path = "" \/ path = "/" -> ((path =? "") || (path =? "/"))%string = true.
Proof. intros [-> | ->]; reflexivity. Qed.

Lemma put_unauthenticated req path st :
  truthy (current_user req) = false ->
  put req path st = (Raise (HTTPError 403 None), st).
Proof. intros H. unfold BookstorePublishHandler.put, authenticated. now rewrite H. Qed.

Lemma put_path_missing req path st :
  truthy (current_user req) = true ->
  path = "" \/ path = "/" ->
  put req path st =
  (Raise (HTTPError 400 (Some "Must provide a path for publishing")),
   after st [attempt path]).
Proof.
  intros Hu Hp. unfold BookstorePublishHandler.put, authenticated.
  rewrite Hu. unfold bind, log_info, emit.
  now rewrite (path_missing_test _ Hp).
Qed.

Lemma put_body_raises req path st e :
  truthy (current_user req) = true ->
  path_given path ->
  json_body req = Raise e ->
  put req path st = (Raise e, after st [attempt path; GetJsonBody]).
Proof.
  intros Hu Hp Hb. unfold BookstorePublishHandler.put, authenticated.
  rewrite Hu. unfold bind, log_info, emit, get_json_body, bind, emit.
  rewrite (path_given_test _ Hp), Hb. unfold raise.
  now rewrite after_after.
Qed.

Lemma put_body_falsy req path st v :
  truthy (current_user req) = true ->
  path_given path ->
  json_body req = Ok v ->
  truthy v = false ->
  put req path st =
  (Raise (HTTPError 400 (Some "Cannot publish an empty model")),
   after st [attempt path; GetJsonBody]).
Proof.
  intros Hu Hp Hb Hv. unfold BookstorePublishHandler.put, authenticated.
  rewrite Hu. unfold bind, log_info, emit, get_json_body, bind, emit.
  rewrite (path_given_test _ Hp), Hb. unfold ret. rewrite Hv. unfold raise.
  now rewrite after_after.
Qed.

Lemma put_body_truthy req path st v :
  truthy (current_user req) = true ->
  path_given path ->
  json_body req = Ok v ->
  truthy v = true ->
  put req path st =
  _publish v (lstrip "/" path) (after st [attempt path; GetJsonBody]).
Proof.
  intros Hu Hp Hb Hv. unfold BookstorePublishHandler.put, authenticated.
  rewrite Hu. unfold bind, log_info, emit, get_json_body, bind, emit.
  rewrite (path_given_test _ Hp), Hb. unfold ret. rewrite Hv.
  now rewrite after_after.
Qed.

Lemma ne_str_false (v : pyval) (s : string) :
  ne_str v s = false <-> v = PStr s.
Proof.
  split.
  - destruct v; cbn; try discriminate.
    intros H. apply negb_false_iff, String.eqb_eq in H. now subst.
  - intros ->. cbn. now rewrite String.eqb_refl.
Qed.

Lemma publish_not_dict v path st :
  (forall d, v <> PDict d) ->
  exists msg, _publish v path st = (Raise (TypeError msg), st).
Proof.
  intros H. unfold BookstorePublishHandler._publish, bind.
  destruct v; cbn; try (eexists; reflexivity).
  now elim (H items).
Qed.

Lemma publish_type_missing d path st :
  dict_lookup "type" d = None ->
  _publish (PDict d) path st = (Raise (KeyError "type"), st).
Proof.
  intros H. unfold BookstorePublishHandler._publish, bind, getitem.
  now rewrite H.
Qed.

Lemma publish_wrong_type d t path st :
  dict_lookup "type" d = Some t ->
  ne_str t "notebook" = true ->
  _publish (PDict d) path st =
  (Raise (HTTPError 400 (Some "bookstore only publishes notebooks")), st).
Proof.
  intros H Ht. unfold BookstorePublishHandler._publish, bind, getitem.
  rewrite H. unfold ret. now rewrite Ht.
Qed.

Lemma publish_content_missing d path st :
  dict_lookup "type" d = Some (PStr "notebook") ->
  dict_lookup "content" d = None ->
  _publish (PDict d) path st = (Raise (KeyError "content"), st).
Proof.
  intros H Hc. unfold BookstorePublishHandler._publish, bind, getitem.
  rewrite H. unfold ret. cbn [ne_str String.eqb Ascii.eqb Bool.eqb negb].
  now rewrite Hc.
Qed.

Lemma publish_write d content path st :
  notebook_model d content ->
  _publish (PDict d) path st =
  match put_object_reply session (length (put_objects (trace st)))
          bucket (s3_key prefix path) (json_dumps content) with
  | Failed name =>
      (Raise (ClientError name),
       after st (write_begun path content ++ [CloseClient]))
  | Replied obj =>
      let st' := after st (write_begun path content ++ write_done path) in
      match finished st with
      | Some _ =>
          (Raise (RuntimeError "finish() called twice"),
           {| settings := settings st'; status := 201;
              finished := finished st'; trace := trace st' |})
      | None =>
          (Ok tt,
           {| settings := settings st'; status := 201;
              finished := Some (json_dumps (PDict (response_content path obj)));
              trace := trace st' |})
      end
  end.
Proof.
  intros [H Hc]. unfold BookstorePublishHandler._publish, bind, getitem.
  rewrite H. unfold ret. cbn [ne_str String.eqb Ascii.eqb Bool.eqb negb].
  rewrite Hc. unfold with_client, finally, bind, log_info, emit, put_object, emit.
  cbn [trace after].
  rewrite !put_objects_app. cbn [put_objects filter is_put_object].
  rewrite !app_nil_r.
  destruct (put_object_reply _ _ _ _ _) as [obj | name].
  - unfold ret, set_status, finish, response_content. cbn.
    destruct (finished st); destruct (dict_lookup "VersionId" obj);
      cbn; rewrite <- ?app_assoc; reflexivity.
  - unfold after. cbn. rewrite <- ?app_assoc. reflexivity.
Qed.

Lemma path_given_dec (path : string) :
  {path = "" \/ path = "/"} + {path_given path}.
Proof.
  destruct (string_dec path "") as [-> | H1]; [now left; left |].
  destruct (string_dec path "/") as [-> | H2]; [now left; right |].
  right; now split.
Qed.

Lemma put_objects_after_reading (st : handler_state) (path : string) :
  put_objects (trace (after st [attempt path; GetJsonBody]))
  = put_objects (trace st).
Proof. cbn [after trace]. rewrite put_objects_app. cbn. apply app_nil_r. Qed.

Theorem put_exits req path st : put_exit req path st (put req path st).
Proof.
  destruct (truthy (current_user req)) eqn:Hu.
  2: { rewrite put_unauthenticated by assumption. now apply exit_unauthenticated. }
  destruct (path_given_dec path) as [Hp | Hp].
  { rewrite put_path_missing by assumption. now apply exit_path_missing. }
  destruct (json_body req) as [v | e] eqn:Hb.
  2: { rewrite (put_body_raises _ _ _ e) by assumption. now apply exit_body_raises. }
  destruct (truthy v) eqn:Hv.
  2: { rewrite (put_body_falsy _ _ _ v) by assumption. now apply exit_empty_model with (v := v). }
  rewrite (put_body_truthy _ _ _ v) by assumption.
  assert (Hnd : (forall d, v <> PDict d) \/ exists d, v = PDict d).
  { destruct v; try (left; intros; discriminate). right; now eexists. }
  destruct Hnd as [Hnd | [d ->]].
  { destruct (publish_not_dict v (lstrip "/" path)
                (after st [attempt path; GetJsonBody]) Hnd) as [msg ->].
    now apply exit_not_subscriptable with (v := v). }
  destruct (dict_lookup "type" d) as [t |] eqn:Ht.
  2: { rewrite publish_type_missing by assumption. now apply exit_type_missing with (d := d). }
  destruct (ne_str t "notebook") eqn:Hne.
  { rewrite (publish_wrong_type _ t) by assumption.
    apply exit_wrong_type with (d := d) (t := t); try assumption.
    intros ->. cbn in Hne. discriminate. }
  apply ne_str_false in Hne. subst t.
  destruct (dict_lookup "content" d) as [content |] eqn:Hc.
  2: { rewrite publish_content_missing by assumption. now apply exit_content_missing with (d := d). }
  rewrite (publish_write d content) by (now split).
  rewrite put_objects_after_reading. cbn [finished after].
  destruct (put_object_reply _ _ _ _ _) as [obj | name] eqn:Hr.
  - destruct (finished st) as [chunk |] eqn:Hf; cbn [settings status trace after].
    + rewrite <- !app_assoc.
      apply exit_finished_twice with (d := d) (content := content) (obj := obj);
        try assumption. now split.
    + rewrite <- !app_assoc.
      apply exit_published with (d := d) (content := content);
        try assumption. now split.
  - rewrite after_after.
    apply exit_storage_failed with (d := d); try assumption. now split.
Qed.

(** *** Validation *)

(** C5: publishing to the empty path and to the root path both fail with a
    400 for the missing publish path, whatever the request body is (even one
    the host could not decode), and the body is not read: the only action is
    the first log line, and the outcome is the same for every body. *)
Theorem put_rejects_missing_path req path st :
  truthy (current_user req) = true ->
  path = "" \/ path = "/" ->
  put req path st
  = (Raise (HTTPError 400 (Some "Must provide a path for publishing")),
     after st [attempt path]) /\
  forall body,
    put {| current_user := current_user req; json_body := body |} path st
    = put req path st.
Proof.
  intros Hu Hp. rewrite !put_path_missing by assumption.
  split; [reflexivity |]. intros body. now apply put_path_missing.
Qed.

(** C6: for a path that is neither empty nor the root, an absent or null
    body and the empty object both fail with the 400 of the empty model, and
    nothing is written to the store. *)
Theorem put_rejects_empty_model req path st :
  truthy (current_user req) = true ->
  path_given path ->
  json_body req = Ok PNone \/ json_body req = Ok (PDict []) ->
  put req path st
  = (Raise (HTTPError 400 (Some "Cannot publish an empty model")),
     after st [attempt path; GetJsonBody]) /\
  put_objects (trace (snd (put req path st))) = put_objects (trace st).
Proof.
  intros Hu Hp Hb.
  assert (E : put req path st
              = (Raise (HTTPError 400 (Some "Cannot publish an empty model")),
                 after st [attempt path; GetJsonBody])).
  { destruct Hb as [Hb | Hb];
      [apply put_body_falsy with PNone | apply put_body_falsy with (PDict [])];
      auto. }
  rewrite E. split; [reflexivity |]. cbn [snd].
  apply put_objects_after_reading.
Qed.

(** C10: for a path that is neither empty nor the root, a body that decodes
    to any value Python counts as false ([false], [0], the empty string, the
    empty array, ...) ends exactly as an absent body does: with the 400
    "Cannot publish an empty model". *)
Theorem put_rejects_falsy_body req path st v :
  truthy (current_user req) = true ->
  path_given path ->
  json_body req = Ok v ->
  truthy v = false ->
  put req path st
  = (Raise (HTTPError 400 (Some "Cannot publish an empty model")),
     after st [attempt path; GetJsonBody]) /\
  put req path st
  = put {| current_user := current_user req; json_body := Ok PNone |} path st.
Proof.
  intros Hu Hp Hb Hv.
  rewrite (put_body_falsy req path st v) by assumption.
  split; [reflexivity |].
  symmetry. now apply put_body_falsy with PNone.
Qed.

(** C4: the checks run in a fixed order and the first failing one decides:
    a missing path is reported whatever the body is (and before the body is
    read); with a path given, a falsy body is reported as the empty model
    whatever else it holds; only then is the type examined. *)
Theorem put_checks_in_order req path st :
  truthy (current_user req) = true ->
  (path = "" \/ path = "/" ->
   put req path st
   = (Raise (HTTPError 400 (Some "Must provide a path for publishing")),
      after st [attempt path])) /\
  (path_given path ->
   forall v, json_body req = Ok v -> truthy v = false ->
   put req path st
   = (Raise (HTTPError 400 (Some "Cannot publish an empty model")),
      after st [attempt path; GetJsonBody])) /\
  (path_given path ->
   forall d t, json_body req = Ok (PDict d) ->
   dict_lookup "type" d = Some t -> t <> PStr "notebook" ->
   put req path st
   = (Raise (HTTPError 400 (Some "bookstore only publishes notebooks")),
      after st [attempt path; GetJsonBody])).
Proof.
  intros Hu. repeat split.
  - intros Hp. now apply put_path_missing.
  - intros Hp v Hb Hv. now apply put_body_falsy with v.
  - intros Hp d t Hb Ht Hne.
    assert (Hv : truthy (PDict d) = true).
    { destruct d; [discriminate Ht | reflexivity]. }
    rewrite (put_body_truthy req path st (PDict d)) by assumption.
    apply publish_wrong_type with t; [assumption |].
    destruct (ne_str t "notebook") eqn:E; [reflexivity |].
    apply ne_str_false in E. contradiction.
Qed.

(** C1, as amended: with a path given and a truthy body, a JSON object whose
    type field is present and different from "notebook" is rejected with the
    400 "bookstore only publishes notebooks"; the other malformed shapes are
    not turned into a 400: an object without the type field raises
    [KeyError] on "type", an object of type "notebook" without the content
    field raises [KeyError] on "content", and a body that is not an object
    raises [TypeError]. *)
Theorem put_malformed_body req path st v :
  truthy (current_user req) = true ->
  path_given path ->
  json_body req = Ok v ->
  truthy v = true ->
  (forall d t, v = PDict d -> dict_lookup "type" d = Some t ->
     t <> PStr "notebook" ->
     put req path st
     = (Raise (HTTPError 400 (Some "bookstore only publishes notebooks")),
        after st [attempt path; GetJsonBody])) /\
  (forall d, v = PDict d -> dict_lookup "type" d = None ->
     put req path st
     = (Raise (KeyError "type"), after st [attempt path; GetJsonBody])) /\
  (forall d, v = PDict d -> dict_lookup "type" d = Some (PStr "notebook") ->
     dict_lookup "content" d = None ->
     put req path st
     = (Raise (KeyError "content"), after st [attempt path; GetJsonBody])) /\
  ((forall d, v <> PDict d) ->
     exists msg,
       put req path st
       = (Raise (TypeError msg), after st [attempt path; GetJsonBody])).
Proof.
  intros Hu Hp Hb Hv.
  rewrite (put_body_truthy req path st v) by assumption.
  repeat split.
  - intros d t -> Ht Hne. apply publish_wrong_type with t; [assumption |].
    destruct (ne_str t "notebook") eqn:E; [reflexivity |].
    apply ne_str_false in E. contradiction.
  - intros d -> Ht. now apply publish_type_missing.
  - intros d -> Ht Hc. now apply publish_content_missing.
  - intros Hnd. now apply publish_not_dict.
Qed.

(** *** The storage write and the response *)

Lemma notebook_model_truthy d content :
  notebook_model d content -> truthy (PDict d) = true.
Proof. intros [H _]. destruct d; [discriminate H | reflexivity]. Qed.

Lemma lookup_response_other path obj k :
  k <> "s3path" -> k <> "versionID" ->
  dict_lookup k (response_content path obj) = None.
Proof.
  intros H1 H2. unfold response_content.
  cbn [dict_lookup]. rewrite (proj2 (String.eqb_neq _ _)) by congruence.
  destruct (dict_lookup "VersionId" obj); cbn [dict_lookup]; [| reflexivity].
  now rewrite (proj2 (String.eqb_neq _ _)) by congruence.
Qed.

(** C2: when every validation passes and the store answers the write, the
    handler returns normally with status 201, and the body it finishes with
    is the JSON text of a dict holding [s3path], the full storage path of the
    stripped request path, and [versionID] exactly when the store's answer
    has a [VersionId], with that value; the dict holds no other key. *)
Theorem put_success_response req path st d content obj :
  truthy (current_user req) = true ->
  path_given path ->
  finished st = None ->
  json_body req = Ok (PDict d) ->
  notebook_model d content ->
  put_object_reply session (length (put_objects (trace st)))
    bucket (s3_key prefix (lstrip "/" path)) (json_dumps content)
  = Replied obj ->
  exists resp_content,
    fst (put req path st) = Ok tt /\
    status (snd (put req path st)) = 201 /\
    finished (snd (put req path st)) = Some (json_dumps (PDict resp_content)) /\
    dict_lookup "s3path" resp_content
    = Some (PStr (s3_path bucket prefix (lstrip "/" path))) /\
    dict_lookup "versionID" resp_content = dict_lookup "VersionId" obj /\
    (forall k, k <> "s3path" -> k <> "versionID" ->
       dict_lookup k resp_content = None).
Proof.
  intros Hu Hp Hf Hb Hm Hr.
  exists (response_content (lstrip "/" path) obj).
  rewrite (put_body_truthy req path st (PDict d));
    try assumption; [| now apply notebook_model_truthy with content].
  rewrite (publish_write d content) by assumption.
  rewrite put_objects_after_reading, Hr. cbn [finished after]. rewrite Hf.
  cbn [fst snd status finished].
  repeat split.
  - unfold response_content. cbn [dict_lookup].
    destruct (dict_lookup "VersionId" obj); reflexivity.
  - intros k. apply lookup_response_other.
Qed.

(** C3: a [put] adds at most one [put_object] call to the trace.  It adds
    exactly one, for the bucket, the key of the stripped path and the JSON
    text of the content field, when every validation passes; when the store
    raises on that call the exception leaves the handler, the framework
    answers 500, no response is written and no second call is made.  It adds
    none when the request is turned down with an [HTTPError] or ends in a
    [KeyError] or [TypeError]. *)
Theorem put_writes_at_most_once req path st :
  (truthy (current_user req) = true -> path_given path ->
   forall d content,
     json_body req = Ok (PDict d) -> notebook_model d content ->
     put_objects (trace (snd (put req path st)))
     = (put_objects (trace st) ++
        [PutObject bucket (s3_key prefix (lstrip "/" path))
           (json_dumps content)])%list /\
     forall name,
       put_object_reply session (length (put_objects (trace st)))
         bucket (s3_key prefix (lstrip "/" path)) (json_dumps content)
       = Failed name ->
       fst (put req path st) = Raise (ClientError name) /\
       status_of_exn (ClientError name) = 500 /\
       finished (snd (put req path st)) = finished st) /\
  (forall e,
     fst (put req path st) = Raise e ->
     (forall name, e <> ClientError name) ->
     (forall msg, e <> RuntimeError msg) ->
     put_objects (trace (snd (put req path st))) = put_objects (trace st)) /\
  (exists calls,
     put_objects (trace (snd (put req path st)))
     = (put_objects (trace st) ++ calls)%list /\
     (length calls <= 1)%nat).
Proof.
  split; [| split].
  - intros Hu Hp d content Hb Hm.
    rewrite (put_body_truthy req path st (PDict d));
      try assumption; [| now apply notebook_model_truthy with content].
    rewrite (publish_write d content) by assumption.
    rewrite put_objects_after_reading.
    split.
    + destruct (put_object_reply _ _ _ _ _); [destruct (finished _) |];
        cbn [snd trace after]; rewrite !put_objects_app; cbn;
        now rewrite ?app_nil_r.
    + intros name Hr. rewrite Hr. repeat split.
  - intros e He Hce Hre.
    destruct (put_exits req path st); cbn [fst snd] in *;
      try reflexivity; try apply put_objects_after_reading;
      try (cbn [after trace]; rewrite put_objects_app; cbn; now apply app_nil_r).
    + injection He as <-. now elim (Hce name).
    + injection He as <-. now elim (Hre "finish() called twice").
    + discriminate He.
  - destruct (put_exits req path st); cbn [snd after trace];
      rewrite ?put_objects_app; cbn [put_objects filter is_put_object attempt
        write_begun write_done app];
      try (exists []; rewrite ?app_nil_r; split; [reflexivity | cbn; lia]);
      (eexists; split; [reflexivity | cbn; lia]).
Qed.

(** *** Leading slashes *)

Lemma lstrip_idempotent (chars s : string) :
  lstrip chars (lstrip chars s) = lstrip chars s.
Proof.
  induction s as [| c s IH]; [reflexivity |].
  cbn [lstrip]. destruct (mem_ascii c chars) eqn:E; [exact IH |].
  cbn [lstrip]. now rewrite E.
Qed.

Lemma lstrip_head (chars s : string) (c : ascii) (r : string) :
  lstrip chars s = String c r -> mem_ascii c chars = false.
Proof.
  induction s as [| a s IH]; cbn [lstrip]; [discriminate |].
  destruct (mem_ascii a chars) eqn:E; [exact IH |].
  intros H. injection H as <- _. exact E.
Qed.

Lemma stripped_path_given (path : string) :
  lstrip "/" path <> "" ->
  path_given path /\ path_given (lstrip "/" path).
Proof.
  intros H. repeat split.
  - intros ->. now apply H.
  - intros ->. now apply H.
  - exact H.
  - intros E. apply lstrip_head in E. discriminate E.
Qed.

Lemma same_but_log_after st1 st2 evs :
  same_but_log st1 st2 -> same_but_log (after st1 evs) (after st2 evs).
Proof.
  intros (Hs & Ht & Hf & Hp). repeat split; cbn; try assumption.
  rewrite !put_objects_app. now rewrite Hp.
Qed.

Lemma publish_same_but_log v path st1 st2 :
  same_but_log st1 st2 ->
  fst (_publish v path st1) = fst (_publish v path st2) /\
  same_but_log (snd (_publish v path st1)) (snd (_publish v path st2)).
Proof.
  intros H.
  destruct v as [ | b | n | x | s | l | d ];
    try (split; [reflexivity | exact H]).
  destruct (dict_lookup "type" d) as [t |] eqn:Ht.
  2: { rewrite !publish_type_missing by assumption. now split. }
  destruct (ne_str t "notebook") eqn:Hne.
  { rewrite !(publish_wrong_type d t) by assumption. now split. }
  apply ne_str_false in Hne. subst t.
  destruct (dict_lookup "content" d) as [content |] eqn:Hc.
  2: { rewrite !publish_content_missing by assumption. now split. }
  rewrite !(publish_write d content) by (now split).
  destruct H as (Hs & Hst & Hf & Hp). rewrite Hp, Hf.
  destruct (put_object_reply _ _ _ _ _) as [obj | name].
  - destruct (finished st2) eqn:Hf2; cbn [fst snd]; (split; [reflexivity |]);
      unfold same_but_log; cbn [settings status finished trace after];
      repeat split; try congruence;
      rewrite !put_objects_app; now rewrite Hp.
  - cbn [fst snd]. split; [reflexivity |].
    apply same_but_log_after. now repeat split.
Qed.

(** What a [put] of a notebook model does, whatever the store answers. *)
Lemma put_notebook req path st d content :
  truthy (current_user req) = true -> path_given path ->
  json_body req = Ok (PDict d) -> notebook_model d content ->
  put_objects (trace (snd (put req path st)))
  = (put_objects (trace st) ++
     [PutObject bucket (s3_key prefix (lstrip "/" path))
        (json_dumps content)])%list /\
  (fst (put req path st) = Ok tt ->
   exists obj,
     finished (snd (put req path st))
     = Some (json_dumps (PDict (response_content (lstrip "/" path) obj)))).
Proof.
  intros Hu Hp Hb Hm.
  rewrite (put_body_truthy req path st (PDict d));
    try assumption; [| now apply notebook_model_truthy with content].
  rewrite (publish_write d content) by assumption.
  rewrite put_objects_after_reading.
  destruct (put_object_reply _ _ _ _ _) as [obj | name];
    [destruct (finished _) |];
    cbn [fst snd trace after finished]; rewrite !put_objects_app; cbn;
    rewrite ?app_nil_r; (split; [reflexivity |]); try discriminate.
  intros _. now exists obj.
Qed.

(** C7, as amended: for a path that is still non-empty once its leading
    slashes are removed, publishing to the path and publishing to the
    stripped path end the same way, with the same status and response body
    and the same [put_object] calls; when the model is a notebook the one
    call made is for the key of the stripped path, and the body of a
    successful response names the full storage path of the stripped path. *)
Theorem put_strips_leading_slashes req path st :
  lstrip "/" path <> "" ->
  fst (put req path st) = fst (put req (lstrip "/" path) st) /\
  same_but_log (snd (put req path st)) (snd (put req (lstrip "/" path) st)) /\
  (truthy (current_user req) = true ->
   forall d content,
     json_body req = Ok (PDict d) -> notebook_model d content ->
     put_objects (trace (snd (put req path st)))
     = (put_objects (trace st) ++
        [PutObject bucket (s3_key prefix (lstrip "/" path))
           (json_dumps content)])%list /\
     (fst (put req path st) = Ok tt ->
      exists obj,
        finished (snd (put req path st))
        = Some (json_dumps (PDict
            (("s3path", PStr (s3_path bucket prefix (lstrip "/" path))) ::
             match dict_lookup "VersionId" obj with
             | Some version_id => [("versionID", version_id)]
             | None => []
             end))))).
Proof.
  intros Hne. destruct (stripped_path_given path Hne) as [Hp Hp'].
  assert (Hrefl : forall evs1 evs2,
             put_objects evs1 = [] -> put_objects evs2 = [] ->
             same_but_log (after st evs1) (after st evs2)).
  { intros evs1 evs2 H1 H2. repeat split. cbn.
    rewrite !put_objects_app. now rewrite H1, H2. }
  rewrite <- and_assoc. split.
  - destruct (truthy (current_user req)) eqn:Hu.
    2: { rewrite !put_unauthenticated by assumption. now repeat split. }
    destruct (json_body req) as [v | e] eqn:Hb.
    2: { rewrite !(put_body_raises _ _ _ e) by assumption.
         split; [reflexivity |]. now apply Hrefl. }
    destruct (truthy v) eqn:Hv.
    2: { rewrite !(put_body_falsy _ _ _ v) by assumption.
         split; [reflexivity |]. now apply Hrefl. }
    rewrite !(put_body_truthy _ _ _ v) by assumption.
    rewrite lstrip_idempotent.
    apply publish_same_but_log. now apply Hrefl.
  - intros Hu d content Hb Hm.
    now apply put_notebook with d.
Qed.

(** *** Further properties of [put] *)

(** X1: on a response that is not yet finished, [put] returns normally only
    for a request that has a user, a path that is neither empty nor the
    root, and a body that is an object of type "notebook" with a content
    field, and only when the store answered the write; the status is then
    201 and the body is the JSON text of the response dict. *)
Theorem put_returns_only_when_published req path st :
  finished st = None ->
  fst (put req path st) = Ok tt ->
  truthy (current_user req) = true /\ path_given path /\
  exists d content obj,
    json_body req = Ok (PDict d) /\ notebook_model d content /\
    put_object_reply session (length (put_objects (trace st)))
      bucket (s3_key prefix (lstrip "/" path)) (json_dumps content)
    = Replied obj /\
    status (snd (put req path st)) = 201 /\
    finished (snd (put req path st))
    = Some (json_dumps (PDict (response_content (lstrip "/" path) obj))).
Proof.
  intros Hf Hok.
  destruct (put_exits req path st); cbn [fst snd] in *; try discriminate Hok.
  split; [assumption |]. split; [assumption |].
  exists d, content, obj. repeat split; assumption || (now destruct H2).
Qed.

(** X2: [put] never changes the application settings and only adds to the
    trace; when it raises on a response that is not yet finished, the
    response is left as it was: same status, nothing written. *)
Theorem put_failure_leaves_response req path st :
  settings (snd (put req path st)) = settings st /\
  (exists added, trace (snd (put req path st)) = (trace st ++ added)%list) /\
  (finished st = None ->
   forall e, fst (put req path st) = Raise e ->
     status (snd (put req path st)) = status st /\
     finished (snd (put req path st)) = None).
Proof.
  destruct (put_exits req path st); cbn [fst snd after settings status finished trace].
  all: split; [reflexivity |].
  all: split;
    [ first [ now exists [] ; rewrite app_nil_r | eexists; reflexivity ] |].
  all: intros Hf e' He'; try (split; [reflexivity | assumption]).
  - congruence.
  - discriminate He'.
Qed.

(** X3: a [put] uses the storage client at most once, and completely: the
    client actions it adds to the trace are either none, or exactly the
    creation of an [s3] client with the credentials, endpoint and region of
    the settings, one [put_object], and the release of the client. *)
Theorem put_client_lifecycle req path st :
  exists added,
    trace (snd (put req path st)) = (trace st ++ added)%list /\
    (client_events added = [] \/
     exists content,
       client_events added
       = [CreateClient "s3" (s3_secret_access_key bookstore_settings)
            (s3_access_key_id bookstore_settings)
            (s3_endpoint_url bookstore_settings)
            (s3_region_name bookstore_settings);
          PutObject bucket (s3_key prefix (lstrip "/" path)) (json_dumps content);
          CloseClient]).
Proof.
  destruct (put_exits req path st); cbn [snd after trace].
  1: exists []; split; [now rewrite app_nil_r | now left].
  all: eexists; split; [reflexivity |].
  all: try (left; reflexivity).
  all: right; exists content; reflexivity.
Qed.

Lemma publish_reads_two_fields d1 d2 path st :
  dict_lookup "type" d1 = dict_lookup "type" d2 ->
  dict_lookup "content" d1 = dict_lookup "content" d2 ->
  _publish (PDict d1) path st = _publish (PDict d2) path st.
Proof.
  intros Ht Hc.
  destruct (dict_lookup "type" d2) as [t |] eqn:Ht2.
  2: { now rewrite !publish_type_missing. }
  destruct (ne_str t "notebook") eqn:Hne.
  { now rewrite !(publish_wrong_type _ t). }
  apply ne_str_false in Hne. subst t.
  destruct (dict_lookup "content" d2) as [content |] eqn:Hc2.
  2: { now rewrite !publish_content_missing. }
  now rewrite !(publish_write _ content) by (now split).
Qed.

(** X4: of a non-empty JSON object, [put] reads the type and content fields
    only: two requests of the same user whose bodies are non-empty objects
    with the same type entry and the same content entry end the same way,
    whatever other fields the bodies hold. *)
Theorem put_reads_type_and_content_only user d1 d2 path st :
  d1 <> [] -> d2 <> [] ->
  dict_lookup "type" d1 = dict_lookup "type" d2 ->
  dict_lookup "content" d1 = dict_lookup "content" d2 ->
  put {| current_user := user; json_body := Ok (PDict d1) |} path st
  = put {| current_user := user; json_body := Ok (PDict d2) |} path st.
Proof.
  intros H1 H2 Ht Hc.
  destruct (truthy user) eqn:Hu.
  2: { now rewrite !put_unauthenticated. }
  destruct (path_given_dec path) as [Hp | Hp].
  { now rewrite !put_path_missing. }
  rewrite (put_body_truthy _ path st (PDict d1));
    try assumption; try reflexivity; [| now destruct d1].
  rewrite (put_body_truthy _ path st (PDict d2));
    try assumption; try reflexivity; [| now destruct d2].
  now apply publish_reads_two_fields.
Qed.

Lemma lstrip_slashes (n : nat) : lstrip "/" (slashes n) = "".
Proof. induction n as [| n IH]; [reflexivity | exact IH]. Qed.

Lemma lstrip_decompose (path : string) :
  exists n,
    path = slashes n ++ lstrip "/" path /\
    forall r, lstrip "/" path <> String "/" r.
Proof.
  induction path as [| c path (n & IH & Hr)].
  - exists O. split; [reflexivity | discriminate].
  - cbn [lstrip]. destruct (mem_ascii c "/") eqn:E.
    + exists (S n). split; [| exact Hr].
      cbn [slashes String.append]. rewrite <- IH.
      cbn in E. rewrite orb_false_r in E. apply Ascii.eqb_eq in E. now subst c.
    + exists O. split; [reflexivity |].
      intros r H. injection H as -> _. discriminate E.
Qed.

(** X5: a path made of two or more slashes passes the path check and, with a
    notebook model, is written under the key of the empty relative path. *)
Theorem put_only_slashes req n st d content :
  truthy (current_user req) = true ->
  json_body req = Ok (PDict d) ->
  notebook_model d content ->
  path_given (slashes (2 + n)) /\
  put_objects (trace (snd (put req (slashes (2 + n)) st)))
  = (put_objects (trace st) ++
     [PutObject bucket (s3_key prefix "") (json_dumps content)])%list.
Proof.
  intros Hu Hb Hm.
  assert (Hp : path_given (slashes (2 + n))) by (split; discriminate).
  split; [exact Hp |].
  destruct (put_notebook req (slashes (2 + n)) st d content Hu Hp Hb Hm) as [Hw _].
  now rewrite lstrip_slashes in Hw.
Qed.

(** X6: the key of the write is built from a relative path that does not
    begin with a slash and that the request path extends by leading slashes
    only. *)
Theorem put_key_path_is_relative req path st d content :
  truthy (current_user req) = true ->
  path_given path ->
  json_body req = Ok (PDict d) ->
  notebook_model d content ->
  exists n rel,
    path = slashes n ++ rel /\
    (forall r, rel <> String "/" r) /\
    put_objects (trace (snd (put req path st)))
    = (put_objects (trace st) ++
       [PutObject bucket (s3_key prefix rel) (json_dumps content)])%list.
Proof.
  intros Hu Hp Hb Hm.
  destruct (lstrip_decompose path) as (n & Hn & Hr).
  exists n, (lstrip "/" path). split; [exact Hn |]. split; [exact Hr |].
  now apply put_notebook with d.
Qed.

(** X7: for a body the host could decode and a response not yet finished,
    the status answered for a [put] is 201, 400, 403 or 500: 201 exactly
    when [put] returns, 403 exactly when the request has no user, and 400
    only with one of the handler's three messages. *)
Theorem put_answers req path st v :
  json_body req = Ok v ->
  finished st = None ->
  In (answer (put req path st)) [201; 400; 403; 500] /\
  (answer (put req path st) = 201 <-> fst (put req path st) = Ok tt) /\
  (answer (put req path st) = 403 <-> truthy (current_user req) = false) /\
  (answer (put req path st) = 400 ->
   exists msg,
     fst (put req path st) = Raise (HTTPError 400 (Some msg)) /\
     In msg ["Must provide a path for publishing";
             "Cannot publish an empty model";
             "bookstore only publishes notebooks"]).
Proof.
  intros Hb Hf.
  destruct (put_exits req path st); unfold answer;
    cbn [fst snd status status_of_exn]; try congruence.
  all: split; [cbn; auto 10 |].
  all: split; [split; intros; (discriminate || congruence) |].
  all: split; [split; intros; (discriminate || congruence) |].
  all: intros H400; try discriminate H400.
  all: eexists; split; [reflexivity | cbn; auto].
Qed.

End Handler.
End PublishSpec.

(* ===================================================================== *)
(** ** Properties of the version handler                                  *)
(* ===================================================================== *)

Module VersionSpec.
Import BookstoreVersionHandler.

Section Handler.
Context {C : Collaborators}.

Lemma get_unauthenticated req st :
  truthy (current_user req) = false ->
  get req st = (Raise (HTTPError 403 None), st).
Proof. intros H. unfold get, authenticated. now rewrite H. Qed.

Lemma get_authenticated req app history d v r :
  truthy (current_user req) = true ->
  bookstore app = Some (PDict d) ->
  dict_lookup "version" d = Some v ->
  dict_lookup "validation" d = Some r ->
  get req (new_request app history)
  = (Ok tt,
     {| settings := app; status := 200;
        finished := Some (json_dumps (version_info v r));
        trace := history |}).
Proof.
  intros Hu Hb Hv Hr. unfold get, authenticated. rewrite Hu.
  unfold bind at 1. unfold settings_bookstore at 1. unfold bind, get_settings.
  cbn [settings new_request fst snd]. rewrite Hb. unfold ret at 1.
  unfold getitem at 1. rewrite Hv. unfold ret at 1.
  unfold settings_bookstore, bind, get_settings.
  cbn [settings new_request]. rewrite Hb. unfold ret at 1.
  unfold getitem. rewrite Hr. reflexivity.
Qed.

(** C9: with the version and the validation report stored in the settings,
    a [get] of an authenticated request returns normally; it finishes the
    response with the JSON text of
    [{bookstore: true, version: <version>, validation: <report>}], the
    report being the stored value itself; it leaves the settings, the status
    and the trace as they were, so that a second request, served on what the
    first left, finishes with the same text.  The only way [get] fails is
    the rejection of a request without a user. *)
Theorem get_version_is_stable req app history d v r :
  bookstore app = Some (PDict d) ->
  dict_lookup "version" d = Some v ->
  dict_lookup "validation" d = Some r ->
  (truthy (current_user req) = true ->
   get req (new_request app history)
   = (Ok tt,
      {| settings := app; status := 200;
         finished := Some (json_dumps (version_info v r));
         trace := history |}) /\
   get req (new_request (settings (snd (get req (new_request app history))))
                        (trace (snd (get req (new_request app history)))))
   = get req (new_request app history)) /\
  (forall e, fst (get req (new_request app history)) = Raise e ->
     truthy (current_user req) = false /\ e = HTTPError 403 None).
Proof.
  intros Hb Hv Hr. split.
  - intros Hu. rewrite (get_authenticated req app history d v r) by assumption.
    split; [reflexivity |]. cbn [snd settings trace].
    now apply get_authenticated with d.
  - intros e He. destruct (truthy (current_user req)) eqn:Hu.
    + rewrite (get_authenticated req app history d v r) in He by assumption.
      discriminate He.
    + rewrite get_unauthenticated in He by assumption.
      injection He as <-. now split.
Qed.

(** *** Further properties of [get] *)

(** X8: when the settings lack what the extension stores at load time, an
    authenticated [get] raises [KeyError]: on "bookstore" when the entry is
    absent, on "version" when the entry is a dict without the version, on
    "validation" when it holds the version and not the report.  In each case
    the handler state is left as it was. *)
Theorem get_missing_settings req st :
  truthy (current_user req) = true ->
  (bookstore (settings st) = None ->
   get req st = (Raise (KeyError "bookstore"), st)) /\
  (forall d, bookstore (settings st) = Some (PDict d) ->
     dict_lookup "version" d = None ->
     get req st = (Raise (KeyError "version"), st)) /\
  (forall d v, bookstore (settings st) = Some (PDict d) ->
     dict_lookup "version" d = Some v ->
     dict_lookup "validation" d = None ->
     get req st = (Raise (KeyError "validation"), st)).
Proof.
  intros Hu. unfold get, authenticated. rewrite Hu.
  split; [| split].
  - intros Hb. unfold bind at 1. unfold settings_bookstore at 1.
    unfold bind, get_settings. now rewrite Hb.
  - intros d Hb Hv. unfold bind at 1. unfold settings_bookstore at 1.
    unfold bind, get_settings. rewrite Hb. unfold ret at 1.
    unfold getitem at 1. now rewrite Hv.
  - intros d v Hb Hv Hr. unfold bind at 1. unfold settings_bookstore at 1.
    unfold bind, get_settings. rewrite Hb. unfold ret at 1.
    unfold getitem at 1. rewrite Hv. unfold ret at 1.
    unfold settings_bookstore, bind, get_settings. rewrite Hb.
    unfold ret at 1. unfold getitem. now rewrite Hr.
Qed.

(** X9: whatever the request and the settings, [get] leaves the settings,
    the status and the trace as they were (it logs nothing and touches no
    store), and when it raises it leaves the whole state as it was: it
    writes a body only when it returns. *)
Theorem get_touches_only_the_body req st :
  settings (snd (get req st)) = settings st /\
  status (snd (get req st)) = status st /\
  trace (snd (get req st)) = trace st /\
  (forall e, fst (get req st) = Raise e -> snd (get req st) = st).
Proof.
  unfold get, authenticated, bind, settings_bookstore, bind, get_settings,
    getitem, ret, raise, finish.
  repeat (cbv beta iota;
          match goal with
          | |- context [match ?x with _ => _ end] =>
              lazymatch x with
              | context [match _ with _ => _ end] => fail
              | _ => destruct x
              end
          end).
  all: cbn [fst snd settings status trace].
  all: repeat split; intros; try reflexivity; discriminate.
Qed.

End Handler.
End VersionSpec.

(* ===================================================================== *)
(** ** Properties of the extension-load hook                              *)
(* ===================================================================== *)

Module ExtensionSpec.
Import Extension.

Section Load.
Context {C : Collaborators}.

Lemma load_runs nb :
  load_jupyter_server_extension nb
  = (Ok tt,
     {| web_app :=
          {| web_settings :=
               {| base_url := base_url (web_settings (web_app nb));
                  bookstore :=
                    Some (PDict [("version", PStr version);
                                 ("validation",
                                  PDict (validate_bookstore (bookstore_config nb)))]) |};
             handlers :=
               handlers (web_app nb) ++
               version_route nb ::
               (if publishing_enabled (validate_bookstore (bookstore_config nb))
                then [publish_route nb] else []) |};
        bookstore_config := bookstore_config nb;
        log :=
          log nb ++
          [if publishing_enabled (validate_bookstore (bookstore_config nb))
           then "[bookstore] Enabling bookstore publishing, version: " ++ version
           else "[bookstore] Not enabling bookstore publishing, endpoint not configured"]
     |}).
Proof.
  unfold load_jupyter_server_extension, bind, settings_base_url, add_handlers,
    BookstoreSettings_parent, set_settings_bookstore, settings_bookstore.
  cbn -[String.append truthy dict_get].
  unfold all, publishing_enabled. cbn [forallb].
  rewrite andb_true_r.
  destruct (truthy (dict_get _ "bookstore_valid") && truthy (dict_get _ "publish_valid"));
    cbn -[String.append]; unfold version_route, publish_route;
    rewrite <- ?app_assoc; reflexivity.
Qed.

Lemma flag_true (report : pydict) (k : string) :
  dict_lookup k report = Some (PBool true) -> truthy (dict_get report k) = true.
Proof. intros H. unfold dict_get. now rewrite H. Qed.

Lemma flag_false_or_missing (report : pydict) (k : string) :
  dict_lookup k report = None \/ dict_lookup k report = Some (PBool false) ->
  truthy (dict_get report k) = false.
Proof. intros [H | H]; unfold dict_get; now rewrite H. Qed.

Lemma flag_truthy_boolean (report : pydict) (k : string) :
  dict_lookup k report = None \/ (exists b, dict_lookup k report = Some (PBool b)) ->
  truthy (dict_get report k) = true <-> dict_lookup k report = Some (PBool true).
Proof.
  unfold dict_get. intros [H | [[] H]]; rewrite H; cbn;
    split; congruence.
Qed.

Lemma publishing_enabled_flags (report : pydict) :
  boolean_flags report ->
  publishing_enabled report = true <->
  dict_lookup "bookstore_valid" report = Some (PBool true) /\
  dict_lookup "publish_valid" report = Some (PBool true).
Proof.
  intros Hb. unfold publishing_enabled. rewrite andb_true_iff.
  rewrite (flag_truthy_boolean report "bookstore_valid") by (apply Hb; now left).
  rewrite (flag_truthy_boolean report "publish_valid") by (apply Hb; now right).
  reflexivity.
Qed.

Lemma load_stores_settings nb :
  bookstore (web_settings (web_app (snd (load_jupyter_server_extension nb))))
  = Some (PDict [("version", PStr version);
                 ("validation", PDict (validate_bookstore (bookstore_config nb)))]).
Proof. now rewrite load_runs. Qed.

(** C8: loading the extension always succeeds and always adds the version
    route; it adds the publish route exactly when the validation report
    holds a true [bookstore_valid] and a true [publish_valid]: with both
    flags true the route is added, and when either flag is false or missing
    it is not; for a report whose two flags are booleans or missing, the
    route is added if and only if both are present and true. *)
Theorem load_registers_routes nb :
  let report := validate_bookstore (bookstore_config nb) in
  exists added nb',
    load_jupyter_server_extension nb = (Ok tt, nb') /\
    handlers (web_app nb') = (handlers (web_app nb) ++ added)%list /\
    In (version_route nb) added /\
    mounted BookstoreVersionHandler added = true /\
    (In (publish_route nb) added <-> publishing_enabled report = true) /\
    mounted BookstorePublishHandler added = publishing_enabled report /\
    (dict_lookup "bookstore_valid" report = Some (PBool true) ->
     dict_lookup "publish_valid" report = Some (PBool true) ->
     publishing_enabled report = true) /\
    (forall k, k = "bookstore_valid" \/ k = "publish_valid" ->
       dict_lookup k report = None \/ dict_lookup k report = Some (PBool false) ->
       publishing_enabled report = false) /\
    (boolean_flags report ->
     (In (publish_route nb) added <->
      dict_lookup "bookstore_valid" report = Some (PBool true) /\
      dict_lookup "publish_valid" report = Some (PBool true))).
Proof.
  intros report. rewrite load_runs. fold report.
  eexists. eexists. split; [reflexivity |]. cbn [web_app handlers].
  split; [reflexivity |].
  split; [now left |].
  split; [reflexivity |].
  assert (Hin : In (publish_route nb)
                   (version_route nb ::
                    (if publishing_enabled report then [publish_route nb] else []))
                <-> publishing_enabled report = true).
  { destruct (publishing_enabled report).
    + split; [reflexivity | intros _; right; now left].
    + split; [| discriminate]. intros [H | []]. discriminate H. }
  split; [exact Hin |].
  split; [| split; [| split]].
  - destruct (publishing_enabled report); reflexivity.
  - intros H1 H2. unfold publishing_enabled.
    now rewrite (flag_true _ _ H1), (flag_true _ _ H2).
  - intros k [-> | ->] H; unfold publishing_enabled;
      rewrite (flag_false_or_missing _ _ H); [reflexivity | apply andb_false_r].
  - intros Hb. rewrite Hin. now apply publishing_enabled_flags.
Qed.

(** *** Further properties of the hook *)

(** X10: once the extension is loaded, the version handler serves, to any
    request with a user, the package version and the validation report the
    hook computed from the configuration. *)
Theorem version_after_load nb req history :
  truthy (current_user req) = true ->
  BookstoreVersionHandler.get req
    (new_request (web_settings (web_app (snd (load_jupyter_server_extension nb))))
       history)
  = (Ok tt,
     {| settings := web_settings (web_app (snd (load_jupyter_server_extension nb)));
        status := 200;
        finished :=
          Some (json_dumps
                  (BookstoreVersionHandler.version_info (PStr version)
                     (PDict (validate_bookstore (bookstore_config nb)))));
        trace := history |}).
Proof.
  intros Hu.
  apply VersionSpec.get_authenticated
    with (d := [("version", PStr version);
                ("validation", PDict (validate_bookstore (bookstore_config nb)))]).
  - exact Hu.
  - apply load_stores_settings.
  - reflexivity.
  - reflexivity.
Qed.

(** X11: loading keeps the base URL, the configuration and the earlier log
    lines, and adds exactly one log line: the one announcing publishing,
    with the version, when the publish route is added, and the one saying
    that publishing is not enabled otherwise. *)
Theorem load_keeps_and_logs nb :
  let nb' := snd (load_jupyter_server_extension nb) in
  let report := validate_bookstore (bookstore_config nb) in
  base_url (web_settings (web_app nb')) = base_url (web_settings (web_app nb)) /\
  bookstore_config nb' = bookstore_config nb /\
  exists line,
    log nb' = (log nb ++ [line])%list /\
    (publishing_enabled report = true ->
     line = "[bookstore] Enabling bookstore publishing, version: " ++ version) /\
    (publishing_enabled report = false ->
     line = "[bookstore] Not enabling bookstore publishing, endpoint not configured").
Proof.
  intros nb' report. subst nb'. rewrite load_runs. fold report.
  cbn [snd web_app web_settings base_url bookstore_config log].
  split; [reflexivity |]. split; [reflexivity |].
  eexists. split; [reflexivity |].
  destruct (publishing_enabled report); split; intros H;
    reflexivity || discriminate H.
Qed.

(** X12: loading a second time stores the same settings again but registers
    the same routes once more: after two loads the routes of one load appear
    twice, after the earlier ones. *)
Theorem load_twice nb :
  let nb1 := snd (load_jupyter_server_extension nb) in
  let nb2 := snd (load_jupyter_server_extension nb1) in
  web_settings (web_app nb2) = web_settings (web_app nb1) /\
  exists added,
    added <> [] /\
    handlers (web_app nb1) = (handlers (web_app nb) ++ added)%list /\
    handlers (web_app nb2) = (handlers (web_app nb) ++ added ++ added)%list.
Proof.
  intros nb1 nb2. subst nb2 nb1. rewrite !load_runs.
  cbn [snd web_app web_settings base_url bookstore_config handlers].
  split; [reflexivity |].
  eexists. split; [| split; [reflexivity |]].
  - discriminate.
  - unfold version_route, publish_route.
    cbn [snd web_app web_settings base_url bookstore_config handlers].
    now rewrite <- app_assoc.
Qed.

End Load.
End ExtensionSpec.

(* ===================================================================== *)
(** ** Sample runs                                                        *)
(* ===================================================================== *)

Module Examples.
Import Model BookstorePublishHandler.

Local Abbreviation put := (put (C := collaborators) sample_settings).
Local Abbreviation fresh := (new_request sample_app []).

(** The missing-path check at the root path, with a body the host could not
    decode. *)
Lemma missing_path_at_root :
  put unversioned_store
    (user_request (Raise (HTTPError 400 (Some "Invalid JSON in body of request"))))
    "/" fresh
  = (Raise (HTTPError 400 (Some "Must provide a path for publishing")),
     after fresh [attempt "/"]) /\
  forall body,
    put unversioned_store
      {| current_user :=
           current_user (user_request
             (Raise (HTTPError 400 (Some "Invalid JSON in body of request"))));
         json_body := body |} "/" fresh
    = put unversioned_store
        (user_request (Raise (HTTPError 400 (Some "Invalid JSON in body of request"))))
        "/" fresh.
Proof.
  apply (PublishSpec.put_rejects_missing_path (C := collaborators)).
  - reflexivity.
  - now right.
Defined.

(** The empty object at a path. *)
Lemma empty_object_at_path :
  put unversioned_store (user_request (Ok (PDict []))) "foo/bar.ipynb" fresh
  = (Raise (HTTPError 400 (Some "Cannot publish an empty model")),
     after fresh [attempt "foo/bar.ipynb"; GetJsonBody]) /\
  put_objects (trace (snd
    (put unversioned_store (user_request (Ok (PDict []))) "foo/bar.ipynb" fresh)))
  = put_objects (trace fresh).
Proof.
  apply (PublishSpec.put_rejects_empty_model (C := collaborators)).
  - reflexivity.
  - split; discriminate.
  - now right.
Defined.

(** The falsy bodies other than null. *)
Lemma falsy_bodies_at_path :
  Forall (fun v =>
    put unversioned_store (user_request (Ok v)) "foo/bar.ipynb" fresh
    = (Raise (HTTPError 400 (Some "Cannot publish an empty model")),
       after fresh [attempt "foo/bar.ipynb"; GetJsonBody]) /\
    put unversioned_store (user_request (Ok v)) "foo/bar.ipynb" fresh
    = put unversioned_store
        {| current_user := current_user (user_request (Ok v));
           json_body := Ok PNone |} "foo/bar.ipynb" fresh)
    [PBool false; PInt 0; PFloat (S754_zero false); PStr ""; PList []].
Proof.
  assert (Hg : path_given "foo/bar.ipynb") by (split; discriminate).
  pose proof (fun v (Hv : truthy v = false) =>
                PublishSpec.put_rejects_falsy_body (C := collaborators)
                  sample_settings unversioned_store (user_request (Ok v))
                  "foo/bar.ipynb" fresh v eq_refl Hg eq_refl Hv) as W.
  repeat (apply Forall_cons; [apply W; reflexivity |]).
  apply Forall_nil.
Defined.

(** The order of the checks: a body of the wrong type at the root path is
    turned down for the path, an empty body at a path for being empty, and a
    body of the wrong type at a path for its type. *)
Lemma checks_in_order_sample :
  put unversioned_store (user_request (Ok (PDict [("type", PStr "file")])))
    "/" fresh
  = (Raise (HTTPError 400 (Some "Must provide a path for publishing")),
     after fresh [attempt "/"]) /\
  put unversioned_store (user_request (Ok (PDict []))) "" fresh
  = (Raise (HTTPError 400 (Some "Must provide a path for publishing")),
     after fresh [attempt ""]) /\
  put unversioned_store (user_request (Ok (PDict []))) "foo/bar.ipynb" fresh
  = (Raise (HTTPError 400 (Some "Cannot publish an empty model")),
     after fresh [attempt "foo/bar.ipynb"; GetJsonBody]) /\
  put unversioned_store (user_request (Ok (PDict [("type", PStr "file")])))
    "foo/bar.ipynb" fresh
  = (Raise (HTTPError 400 (Some "bookstore only publishes notebooks")),
     after fresh [attempt "foo/bar.ipynb"; GetJsonBody]).
Proof.
  assert (Hg : path_given "foo/bar.ipynb") by (split; discriminate).
  split; [| split; [| split]].
  - apply (PublishSpec.put_checks_in_order (C := collaborators)
             sample_settings unversioned_store
             (user_request (Ok (PDict [("type", PStr "file")]))) "/" fresh
             eq_refl).
    now right.
  - apply (PublishSpec.put_checks_in_order (C := collaborators)
             sample_settings unversioned_store
             (user_request (Ok (PDict []))) "" fresh eq_refl).
    now left.
  - apply (proj1 (proj2 (PublishSpec.put_checks_in_order (C := collaborators)
             sample_settings unversioned_store
             (user_request (Ok (PDict []))) "foo/bar.ipynb" fresh eq_refl))
             Hg (PDict []) eq_refl eq_refl).
  - apply (proj2 (proj2 (PublishSpec.put_checks_in_order (C := collaborators)
             sample_settings unversioned_store
             (user_request (Ok (PDict [("type", PStr "file")])))
             "foo/bar.ipynb" fresh eq_refl))
             Hg [("type", PStr "file")] (PStr "file") eq_refl eq_refl).
    discriminate.
Defined.

(** A body of another type is turned down with a 400. *)
Lemma wrong_type_at_path :
  put unversioned_store
    (user_request (Ok (PDict [("type", PStr "not-a-notebook");
                              ("content", PDict [])])))
    "foo/bar.ipynb" fresh
  = (Raise (HTTPError 400 (Some "bookstore only publishes notebooks")),
     after fresh [attempt "foo/bar.ipynb"; GetJsonBody]).
Proof.
  refine (proj1 (PublishSpec.put_malformed_body (C := collaborators)
                   sample_settings unversioned_store _ "foo/bar.ipynb" fresh _
                   _ _ _ _) _ _ eq_refl _ _).
  - reflexivity.
  - split; discriminate.
  - reflexivity.
  - reflexivity.
  - reflexivity.
  - discriminate.
Defined.

(** C1, as stated, fails: a truthy body without the type field, and one of
    type "notebook" without the content field, do not end in a 400 but in a
    [KeyError], which the framework answers with a 500. *)
Lemma missing_field_is_not_bad_request :
  fst (put unversioned_store
         (user_request (Ok (PDict [("content", PDict [])])))
         "foo/bar.ipynb" fresh)
  = Raise (KeyError "type") /\
  fst (put unversioned_store
         (user_request (Ok (PDict [("type", PStr "notebook")])))
         "foo/bar.ipynb" fresh)
  = Raise (KeyError "content") /\
  status_of_exn (KeyError "type") = 500 /\
  ~ (exists msg,
       fst (put unversioned_store
              (user_request (Ok (PDict [("content", PDict [])])))
              "foo/bar.ipynb" fresh)
       = Raise (HTTPError 400 msg)).
Proof.
  repeat split. intros [msg H]. discriminate H.
Qed.

(** A notebook published to a store that reports no version, and to one that
    reports the version [v1]. *)
Lemma success_without_version :
  exists resp_content,
    fst (put unversioned_store (user_request (Ok sample_notebook))
           "foo/bar.ipynb" fresh) = Ok tt /\
    status (snd (put unversioned_store (user_request (Ok sample_notebook))
                   "foo/bar.ipynb" fresh)) = 201 /\
    finished (snd (put unversioned_store (user_request (Ok sample_notebook))
                     "foo/bar.ipynb" fresh))
    = Some (json_dumps (PDict resp_content)) /\
    dict_lookup "s3path" resp_content
    = Some (PStr (s3_path "bookstore" "published" (lstrip "/" "foo/bar.ipynb"))) /\
    dict_lookup "versionID" resp_content
    = dict_lookup "VersionId" [("ETag", PStr "e1")] /\
    (forall k, k <> "s3path" -> k <> "versionID" ->
       dict_lookup k resp_content = None).
Proof.
  apply (PublishSpec.put_success_response (C := collaborators)
           sample_settings unversioned_store
           (user_request (Ok sample_notebook)) "foo/bar.ipynb" fresh
           [("type", PStr "notebook"); ("content", PDict [("cells", PList [])])]
           (PDict [("cells", PList [])]) [("ETag", PStr "e1")]).
  - reflexivity.
  - split; discriminate.
  - reflexivity.
  - reflexivity.
  - split; reflexivity.
  - reflexivity.
Defined.

Example success_with_version :
  put versioned_store (user_request (Ok sample_notebook)) "foo/bar.ipynb" fresh
  = (Ok tt,
     {| settings := sample_app; status := 201;
        finished :=
          Some (json_dumps
                  (PDict [("s3path", PStr "s3://bookstore/published/foo/bar.ipynb");
                          ("versionID", PStr "v1")]));
        trace :=
          [attempt "foo/bar.ipynb"; GetJsonBody;
           LogInfo "Publishing to s3://bookstore/published/foo/bar.ipynb";
           CreateClient "s3" "secret" "key-id" "http://127.0.0.1:9000" "us-east-1";
           LogInfo "Processing published write of foo/bar.ipynb";
           PutObject "bookstore" "published/foo/bar.ipynb"
             (json_dumps (PDict [("cells", PList [])]));
           LogInfo "Done with published write of foo/bar.ipynb";
           CloseClient] |}).
Proof. reflexivity. Qed.

(** A store that raises: one call, the exception leaves the handler, the
    client is released, nothing is written to the response. *)
Example storage_failure_sample :
  put failing_store (user_request (Ok sample_notebook)) "foo/bar.ipynb" fresh
  = (Raise (ClientError "EndpointConnectionError"),
     {| settings := sample_app; status := 200; finished := None;
        trace :=
          [attempt "foo/bar.ipynb"; GetJsonBody;
           LogInfo "Publishing to s3://bookstore/published/foo/bar.ipynb";
           CreateClient "s3" "secret" "key-id" "http://127.0.0.1:9000" "us-east-1";
           LogInfo "Processing published write of foo/bar.ipynb";
           PutObject "bookstore" "published/foo/bar.ipynb"
             (json_dumps (PDict [("cells", PList [])]));
           CloseClient] |}).
Proof. reflexivity. Qed.

(** The same run through the general statement: one call, a 500, nothing
    written. *)
Lemma one_write_on_failure :
  put_objects (trace (snd
    (put failing_store (user_request (Ok sample_notebook)) "foo/bar.ipynb" fresh)))
  = (put_objects (trace fresh) ++
     [PutObject "bookstore" (s3_key "published" (lstrip "/" "foo/bar.ipynb"))
        (json_dumps (PDict [("cells", PList [])]))])%list /\
  fst (put failing_store (user_request (Ok sample_notebook)) "foo/bar.ipynb" fresh)
  = Raise (ClientError "EndpointConnectionError") /\
  status_of_exn (ClientError "EndpointConnectionError") = 500 /\
  finished (snd
    (put failing_store (user_request (Ok sample_notebook)) "foo/bar.ipynb" fresh))
  = finished fresh.
Proof.
  assert (Hg : path_given "foo/bar.ipynb") by (split; discriminate).
  destruct (proj1 (PublishSpec.put_writes_at_most_once (C := collaborators)
                     sample_settings failing_store
                     (user_request (Ok sample_notebook)) "foo/bar.ipynb" fresh)
              eq_refl Hg
              [("type", PStr "notebook"); ("content", PDict [("cells", PList [])])]
              (PDict [("cells", PList [])]) eq_refl (conj eq_refl eq_refl))
    as [Hw Hf].
  split; [exact Hw | exact (Hf "EndpointConnectionError" eq_refl)].
Defined.

(** Leading slashes: "/foo/bar.ipynb" and "foo/bar.ipynb" are served alike. *)
Lemma leading_slash_sample :
  fst (put versioned_store (user_request (Ok sample_notebook))
         "/foo/bar.ipynb" fresh)
  = fst (put versioned_store (user_request (Ok sample_notebook))
           (lstrip "/" "/foo/bar.ipynb") fresh) /\
  same_but_log
    (snd (put versioned_store (user_request (Ok sample_notebook))
            "/foo/bar.ipynb" fresh))
    (snd (put versioned_store (user_request (Ok sample_notebook))
            (lstrip "/" "/foo/bar.ipynb") fresh)).
Proof.
  pose proof (PublishSpec.put_strips_leading_slashes (C := collaborators)
                sample_settings versioned_store
                (user_request (Ok sample_notebook)) "/foo/bar.ipynb" fresh) as H.
  assert (Hne : lstrip "/" "/foo/bar.ipynb" <> "") by discriminate.
  destruct (H Hne) as (H1 & H2 & _). split; assumption.
Defined.

(** C7, as stated, fails on a path made of slashes only: "//" passes the
    path check and is published under the key of the empty relative path,
    while the path it strips to, the empty path, is turned down. *)
Lemma only_slashes_differ :
  lstrip "/" "//" = "" /\
  fst (put versioned_store (user_request (Ok sample_notebook)) "//" fresh)
  = Ok tt /\
  put_objects (trace (snd
    (put versioned_store (user_request (Ok sample_notebook)) "//" fresh)))
  = [PutObject "bookstore" (s3_key "published" "")
       (json_dumps (PDict [("cells", PList [])]))] /\
  fst (put versioned_store (user_request (Ok sample_notebook))
         (lstrip "/" "//") fresh)
  = Raise (HTTPError 400 (Some "Must provide a path for publishing")) /\
  put_objects (trace (snd
    (put versioned_store (user_request (Ok sample_notebook))
       (lstrip "/" "//") fresh)))
  = [].
Proof. repeat split. Qed.

(** Loading the extension with a complete configuration, and with one that
    has no prefix for publishing. *)
Example load_sample :
  Extension.load_jupyter_server_extension (sample_nb_app sample_settings)
  = (Ok tt,
     {| Extension.web_app :=
          {| Extension.web_settings := loaded_app;
             Extension.handlers :=
               [(".*$", [("/api/bookstore", Extension.BookstoreVersionHandler)]);
                (".*$", [("/api/bookstore/published(?P<path>(?:(?:/[^/]+)+|/?))",
                          Extension.BookstorePublishHandler)])] |};
        Extension.bookstore_config := sample_settings;
        Extension.log := ["[bookstore] Enabling bookstore publishing, version: 2.0.0"]
     |}).
Proof. reflexivity. Qed.

Example load_without_prefix :
  Extension.handlers (Extension.web_app (snd
    (Extension.load_jupyter_server_extension
       (sample_nb_app
          {| s3_bucket := "bookstore"; published_prefix := "";
             s3_secret_access_key := ""; s3_access_key_id := "";
             s3_endpoint_url := ""; s3_region_name := "" |}))))
  = [(".*$", [("/api/bookstore", Extension.BookstoreVersionHandler)])].
Proof. reflexivity. Qed.

(** The same load through the general statement: both flags are true, so
    both routes are among the added ones. *)
Lemma load_adds_both_routes :
  exists added nb',
    Extension.load_jupyter_server_extension (sample_nb_app sample_settings)
    = (Ok tt, nb') /\
    Extension.handlers (Extension.web_app nb') = added /\
    In (Extension.version_route (sample_nb_app sample_settings)) added /\
    In (Extension.publish_route (sample_nb_app sample_settings)) added.
Proof.
  destruct (ExtensionSpec.load_registers_routes (C := collaborators)
              (sample_nb_app sample_settings))
    as (added & nb' & Hrun & Hadd & Hv & _ & Hp & _).
  exists added, nb'. repeat split; try assumption.
  apply Hp. reflexivity.
Defined.

(** Two version requests in a row on the loaded application. *)
Lemma version_twice_sample :
  BookstoreVersionHandler.get (user_request (Ok PNone)) (new_request loaded_app [])
  = (Ok tt,
     {| settings := loaded_app; status := 200;
        finished :=
          Some (json_dumps
                  (BookstoreVersionHandler.version_info (PStr "2.0.0")
                     (PDict [("bookstore_valid", PBool true);
                             ("publish_valid", PBool true)])));
        trace := [] |}) /\
  BookstoreVersionHandler.get (user_request (Ok PNone))
    (new_request
       (settings (snd (BookstoreVersionHandler.get (user_request (Ok PNone))
                         (new_request loaded_app []))))
       (trace (snd (BookstoreVersionHandler.get (user_request (Ok PNone))
                      (new_request loaded_app [])))))
  = BookstoreVersionHandler.get (user_request (Ok PNone)) (new_request loaded_app []).
Proof.
  apply (proj1 (VersionSpec.get_version_is_stable (C := collaborators)
                  (user_request (Ok PNone)) loaded_app []
                  [("version", PStr "2.0.0");
                   ("validation", PDict [("bookstore_valid", PBool true);
                                         ("publish_valid", PBool true)])]
                  (PStr "2.0.0")
                  (PDict [("bookstore_valid", PBool true);
                          ("publish_valid", PBool true)])
                  eq_refl eq_refl eq_refl)).
  reflexivity.
Defined.

(** *** The further properties at sample inputs *)

(** A [put] that returned: the request was a valid one and the status is
    201. *)
Lemma published_sample_was_valid :
  path_given "foo/bar.ipynb" /\
  status (snd (put versioned_store (user_request (Ok sample_notebook))
                 "foo/bar.ipynb" fresh)) = 201.
Proof.
  destruct (PublishSpec.put_returns_only_when_published (C := collaborators)
              sample_settings versioned_store
              (user_request (Ok sample_notebook)) "foo/bar.ipynb" fresh
              eq_refl eq_refl)
    as (_ & Hp & d & content & obj & _ & _ & _ & Hs & _).
  split; [exact Hp | exact Hs].
Defined.

(** A contents-API model with its other fields is served as the bare
    model. *)
Lemma other_fields_ignored :
  put versioned_store
    {| current_user := PStr "user";
       json_body :=
         Ok (PDict [("name", PStr "bar.ipynb"); ("path", PStr "foo/bar.ipynb");
                    ("type", PStr "notebook"); ("format", PStr "json");
                    ("content", PDict [("cells", PList [])])]) |}
    "foo/bar.ipynb" fresh
  = put versioned_store
      {| current_user := PStr "user";
         json_body :=
           Ok (PDict [("type", PStr "notebook");
                      ("content", PDict [("cells", PList [])])]) |}
      "foo/bar.ipynb" fresh.
Proof.
  apply (PublishSpec.put_reads_type_and_content_only (C := collaborators)
           sample_settings versioned_store).
  - discriminate.
  - discriminate.
  - reflexivity.
  - reflexivity.
Defined.

(** Two slashes. *)
Lemma two_slashes_published :
  path_given (slashes (2 + 0)) /\
  put_objects (trace (snd
    (put versioned_store (user_request (Ok sample_notebook))
       (slashes (2 + 0)) fresh)))
  = (put_objects (trace fresh) ++
     [PutObject "bookstore" (s3_key "published" "")
        (json_dumps (PDict [("cells", PList [])]))])%list.
Proof.
  apply (PublishSpec.put_only_slashes (C := collaborators)
           sample_settings versioned_store
           (user_request (Ok sample_notebook)) 0%nat fresh
           [("type", PStr "notebook"); ("content", PDict [("cells", PList [])])]
           (PDict [("cells", PList [])])).
  - reflexivity.
  - reflexivity.
  - split; reflexivity.
Defined.

(** The relative path of "/foo/bar.ipynb". *)
Lemma relative_path_sample :
  exists n rel,
    "/foo/bar.ipynb" = slashes n ++ rel /\
    (forall r, rel <> String "/" r) /\
    put_objects (trace (snd
      (put versioned_store (user_request (Ok sample_notebook))
         "/foo/bar.ipynb" fresh)))
    = (put_objects (trace fresh) ++
       [PutObject "bookstore" (s3_key "published" rel)
          (json_dumps (PDict [("cells", PList [])]))])%list.
Proof.
  apply (PublishSpec.put_key_path_is_relative (C := collaborators)
           sample_settings versioned_store
           (user_request (Ok sample_notebook)) "/foo/bar.ipynb" fresh
           [("type", PStr "notebook"); ("content", PDict [("cells", PList [])])]
           (PDict [("cells", PList [])])).
  - reflexivity.
  - split; discriminate.
  - reflexivity.
  - split; reflexivity.
Defined.

(** The status answered for a body of the wrong type. *)
Lemma answer_sample :
  In (answer (put unversioned_store
                (user_request (Ok (PDict [("type", PStr "file")])))
                "foo/bar.ipynb" fresh))
     [201; 400; 403; 500].
Proof.
  apply (PublishSpec.put_answers (C := collaborators)
           sample_settings unversioned_store
           (user_request (Ok (PDict [("type", PStr "file")])))
           "foo/bar.ipynb" fresh (PDict [("type", PStr "file")])
           eq_refl eq_refl).
Defined.

(** The version handler before the extension stored its settings. *)
Lemma version_before_load :
  BookstoreVersionHandler.get (C := collaborators) (user_request (Ok PNone)) fresh
  = (Raise (KeyError "bookstore"), fresh).
Proof.
  apply (proj1 (VersionSpec.get_missing_settings (C := collaborators)
                  (user_request (Ok PNone)) fresh eq_refl)).
  reflexivity.
Defined.

(** The version handler on the application the hook has loaded. *)
Lemma version_after_load_sample :
  BookstoreVersionHandler.get (user_request (Ok PNone))
    (new_request
       (Extension.web_settings (Extension.web_app (snd
          (Extension.load_jupyter_server_extension
             (sample_nb_app sample_settings))))) [])
  = (Ok tt,
     {| settings :=
          Extension.web_settings (Extension.web_app (snd
            (Extension.load_jupyter_server_extension
               (sample_nb_app sample_settings))));
        status := 200;
        finished :=
          Some (json_dumps
                  (BookstoreVersionHandler.version_info (PStr version)
                     (PDict (validate_bookstore
                               (Extension.bookstore_config
                                  (sample_nb_app sample_settings))))));
        trace := [] |}).
Proof.
  apply (ExtensionSpec.version_after_load (C := collaborators)
           (sample_nb_app sample_settings) (user_request (Ok PNone)) []).
  reflexivity.
Defined.

End Examples.
